(** * Edolog backend: month ranges, record creation, summaries and listings

    A shallow embedding of [src/index.js] and [src/models/spend.js].

    - Module [JSDate] embeds the part of the ECMAScript Date arithmetic that
      [getMonthRange] runs ([new Date(y, m, d)], [getMonth], [setMonth]).
    - Module [JS] embeds request values (JSON), truthiness and the few string
      operations of [getMonthRange].
    - Module [Store] embeds a Mongoose model over one collection.
    - Module [App] embeds [getMonthRange] and the route handlers.

    Numbers are integers ([Z]): a time value is a number of milliseconds, an
    amount is an integral number of currency units.  On integers of magnitude
    below [2^53] the arithmetic of the program is exact and agrees with [Z]. *)

From Stdlib Require Import ZArith Lia String Ascii List.
From stdpp Require Import gmap strings list fin_maps sorting.

Local Open Scope Z_scope.

(** ** ECMAScript time values *)

Module JSDate.

(** A number that may be [NaN]; a Date object is its time value. *)
Definition jsnum : Type := option Z.
Definition Date : Type := option Z.

Definition msPerDay : Z := 86400000.

Definition Day (t : Z) : Z := t / msPerDay.
Definition TimeWithinDay (t : Z) : Z := t mod msPerDay.

Definition DaysInYear (y : Z) : Z :=
  if negb (y mod 4 =? 0) then 365
  else if negb (y mod 100 =? 0) then 366
  else if negb (y mod 400 =? 0) then 365
  else 366.

Definition DayFromYear (y : Z) : Z :=
  365 * (y - 1970) + (y - 1969) / 4 - (y - 1901) / 100 + (y - 1601) / 400.

Definition TimeFromYear (y : Z) : Z := msPerDay * DayFromYear y.

(** [YearFromTime t] is the largest [y] with [TimeFromYear y <= t]; it is
    found among the three years around the mean-year estimate. *)
Definition YearFromTime (t : Z) : Z :=
  let d := Day t in
  let y := 1970 + (400 * d) / 146097 in
  if DayFromYear (y + 1) <=? d then y + 1
  else if DayFromYear y <=? d then y
  else y - 1.

Definition InLeapYear (t : Z) : Z :=
  if DaysInYear (YearFromTime t) =? 366 then 1 else 0.

Definition DayWithinYear (t : Z) : Z := Day t - DayFromYear (YearFromTime t).

Definition MonthFromTime (t : Z) : Z :=
  let d := DayWithinYear t in
  let leap := InLeapYear t in
  if d <? 31 then 0
  else if d <? 59 + leap then 1
  else if d <? 90 + leap then 2
  else if d <? 120 + leap then 3
  else if d <? 151 + leap then 4
  else if d <? 181 + leap then 5
  else if d <? 212 + leap then 6
  else if d <? 243 + leap then 7
  else if d <? 273 + leap then 8
  else if d <? 304 + leap then 9
  else if d <? 334 + leap then 10
  else 11.

Definition DateFromTime (t : Z) : Z :=
  let d := DayWithinYear t in
  let leap := InLeapYear t in
  match MonthFromTime t with
  | 0 => d + 1
  | 1 => d - 30
  | 2 => d - 58 - leap
  | 3 => d - 89 - leap
  | 4 => d - 119 - leap
  | 5 => d - 150 - leap
  | 6 => d - 180 - leap
  | 7 => d - 211 - leap
  | 8 => d - 242 - leap
  | 9 => d - 272 - leap
  | 10 => d - 303 - leap
  | _ => d - 333 - leap
  end.

(** The time value [t] that [MakeDay] looks for: the start of month [mn]
    (0-based, [0 <= mn < 12]) of year [ym]. *)
Definition monthStart (ym mn : Z) : Z :=
  let leap := if DaysInYear ym =? 366 then 1 else 0 in
  let before :=
    match mn with
    | 0 => 0
    | 1 => 31
    | 2 => 59 + leap
    | 3 => 90 + leap
    | 4 => 120 + leap
    | 5 => 151 + leap
    | 6 => 181 + leap
    | 7 => 212 + leap
    | 8 => 243 + leap
    | 9 => 273 + leap
    | 10 => 304 + leap
    | _ => 334 + leap
    end in
  msPerDay * (DayFromYear ym + before).

Definition MakeDay (year month date : Z) : Z :=
  let ym := year + month / 12 in
  let mn := month mod 12 in
  let t := monthStart ym mn in
  Day t + date - 1.

Definition MakeDate (day time : Z) : Z := day * msPerDay + time.

Definition maxTime : Z := 8640000000000000.

Definition TimeClip (time : Z) : Date :=
  if maxTime <? Z.abs time then None else Some time.

(** The local time zone is a fixed offset [tza] from UTC, in milliseconds. *)
Definition LocalTime (tza t : Z) : Z := t + tza.
Definition UTC (tza t : Z) : Z := t - tza.

Definition MakeFullYear (y : Z) : Z :=
  if (0 <=? y) && (y <=? 99) then 1900 + y else y.

(** [new Date(year, month, date)] *)
Definition Date_ymd (tza : Z) (year month : jsnum) (date : Z) : Date :=
  y ← year;
  m ← month;
  let yr := MakeFullYear y in
  let finalDate := MakeDate (MakeDay yr m date) 0 in
  TimeClip (UTC tza finalDate).

Definition getFullYear (tza : Z) (d : Date) : jsnum :=
  t ← d; Some (YearFromTime (LocalTime tza t)).

Definition getMonth (tza : Z) (d : Date) : jsnum :=
  t ← d; Some (MonthFromTime (LocalTime tza t)).

Definition getDate (tza : Z) (d : Date) : jsnum :=
  t ← d; Some (DateFromTime (LocalTime tza t)).

(** Milliseconds since local midnight: zero exactly when hours, minutes,
    seconds and milliseconds are all zero. *)
Definition getTimeOfDay (tza : Z) (d : Date) : jsnum :=
  t ← d; Some (TimeWithinDay (LocalTime tza t)).

(** [d.setMonth(month)], returning the new time value of [d]. *)
Definition setMonth (tza : Z) (d : Date) (month : jsnum) : Date :=
  t0 ← d;
  m ← month;
  let t := LocalTime tza t0 in
  let dt := DateFromTime t in
  let newDate := MakeDate (MakeDay (YearFromTime t) m dt) (TimeWithinDay t) in
  TimeClip (UTC tza newDate).

End JSDate.

(** ** Request values *)

Module JS.
Import JSDate.

(** A JSON value of a request body. *)
#[warnings="-register-all"]
Inductive json : Type :=
| JNull
| JBool (b : bool)
| JNum (n : Z)
| JStr (s : string)
| JArr (l : list json)
| JObj (l : list (string * json)).

(** The result of reading a property: [None] is [undefined]. *)
Definition value : Type := option json.

(** [!v] is [negb (truthy v)]. *)
Definition truthy (v : value) : bool :=
  match v with
  | None => false
  | Some JNull => false
  | Some (JBool b) => b
  | Some (JNum n) => negb (n =? 0)
  | Some (JStr s) => negb (String.eqb s "")
  | Some (JArr _) => true
  | Some (JObj _) => true
  end.

(** [v == null] *)
Definition nullish (v : value) : bool :=
  match v with
  | None => true
  | Some JNull => true
  | Some _ => false
  end.

(** [s.split(sep)] for a one-character separator. *)
Fixpoint split (sep : ascii) (s : string) : list string :=
  match s with
  | EmptyString => [EmptyString]
  | String c s' =>
      if Ascii.eqb c sep then EmptyString :: split sep s'
      else match split sep s' with
           | h :: t => String c h :: t
           | [] => [String c EmptyString]
           end
  end.

Definition digit_value (c : ascii) : option Z :=
  let n := Z.of_N (N_of_ascii c) in
  if (48 <=? n) && (n <=? 57) then Some (n - 48) else None.

Fixpoint parse_digits (acc : Z) (s : string) : jsnum :=
  match s with
  | EmptyString => Some acc
  | String c s' => d ← digit_value c; parse_digits (10 * acc + d) s'
  end.

(** [Number(s)] on the strings a month argument is made of: a string of
    decimal digits is its value and the empty string is [0].  Every other
    string is treated as not a number. *)
Definition Number (s : string) : jsnum := parse_digits 0 s.

End JS.

(** ** What the platform decides

    The program leaves these to the JavaScript engine and to Mongoose; they
    are parameters of the model. *)

Record Runtime : Type := {
  (** offset of local time from UTC, in milliseconds *)
  tza : Z;
  (** [new Date(v)] for a string, an array or an object [v] *)
  Date_parse : JS.json → JSDate.Date;
  (** cast of a request identifier to an ObjectId; [None] is a cast error *)
  castObjectId : string → option N;
  (** cast to String of a value that is not a string *)
  castString_other : JS.json → option string;
  (** cast to Number of a value that is neither a number nor the empty
      string; the inner [None] is [null] *)
  castNumber_other : JS.json → option (option Z)
}.

(** ** Documents and Mongoose models *)

Module Doc.
Record t : Type := {
  _id : N;
  name : string;
  sector : string;
  amount : Z;
  note : option string;
  date : Z;
  createdAt : Z;
  updatedAt : Z
}.
End Doc.

(** The object handed to [Model.create]. *)
Module NewDoc.
Record t : Type := {
  name : JS.value;
  sector : JS.value;
  amount : JS.value;
  note : JS.value;
  date : option JSDate.Date
}.
End NewDoc.

(** A row of the [$group] stage. *)
Module Group.
Record t : Type := { _id : string; amount : Z }.
End Group.

Module Store.
Import JSDate JS.

(** A collection, keyed by [_id]. *)
Abbreviation coll := (gmap N Doc.t).

Definition records (c : coll) : list Doc.t := snd <$> map_to_list c.

(** *** Casting and validation of schema paths *)

Definition castString (rt : Runtime) (v : json) : option string :=
  match v with
  | JStr s => Some s
  | _ => castString_other rt v
  end.

Definition castNumber (rt : Runtime) (v : json) : option (option Z) :=
  match v with
  | JNum n => Some (Some n)
  | JStr EmptyString => Some None
  | _ => castNumber_other rt v
  end.

(** An invalid Date does not cast. *)
Definition castDate (d : Date) : option Z := d.

(** [{ type: String, required: true }] *)
Definition path_String_required (rt : Runtime) (v : value) : option string :=
  j ← v;
  match j with
  | JNull => None
  | _ => s ← castString rt j; if String.eqb s "" then None else Some s
  end.

(** [{ type: Number, required: true }] *)
Definition path_Number_required (rt : Runtime) (v : value) : option Z :=
  j ← v;
  match j with
  | JNull => None
  | _ => n ← castNumber rt j; n
  end.

(** [{ type: String }] *)
Definition path_String (rt : Runtime) (v : value) : option (option string) :=
  match v with
  | None => Some None
  | Some JNull => Some None
  | Some j => s ← castString rt j; Some (Some s)
  end.

(** [{ type: Date, default: Date.now }] *)
Definition path_Date_default_now (now : Z) (v : option Date) : option Z :=
  match v with
  | None => Some now
  | Some d => castDate d
  end.

(** A schema turns the object given to [create] into a document, or fails. *)
Definition Schema : Type := Runtime → Z → N → NewDoc.t → option Doc.t.

(** [SpendSchema] of [src/models/spend.js], with [timestamps: true]. *)
Definition SpendSchema : Schema := λ rt now id o,
  name ← path_String_required rt (NewDoc.name o);
  sector ← path_String_required rt (NewDoc.sector o);
  amount ← path_Number_required rt (NewDoc.amount o);
  note ← path_String rt (NewDoc.note o);
  date ← path_Date_default_now now (NewDoc.date o);
  Some {| Doc._id := id; Doc.name := name; Doc.sector := sector;
          Doc.amount := amount; Doc.note := note; Doc.date := date;
          Doc.createdAt := now; Doc.updatedAt := now |}.

(** Modelled from the spec: the schema of [src/models/income.js], which is
    not among the sources.  The spec calls the two record types structurally
    identical: name, sector and amount required, note optional, date
    defaulting to the creation time, and system-maintained timestamps. *)
Definition IncomeSchema : Schema := λ rt now id o,
  name ← path_String_required rt (NewDoc.name o);
  sector ← path_String_required rt (NewDoc.sector o);
  amount ← path_Number_required rt (NewDoc.amount o);
  note ← path_String rt (NewDoc.note o);
  date ← path_Date_default_now now (NewDoc.date o);
  Some {| Doc._id := id; Doc.name := name; Doc.sector := sector;
          Doc.amount := amount; Doc.note := note; Doc.date := date;
          Doc.createdAt := now; Doc.updatedAt := now |}.

(** *** Model operations; [None] is a rejected promise *)

(** [Model.create(o)]: the new document gets an identifier that is not in
    the collection. *)
Definition create (schema : Schema) (rt : Runtime) (now : Z) (c : coll)
    (o : NewDoc.t) : option (Doc.t * coll) :=
  d ← schema rt now (fresh (dom c)) o;
  Some (d, <[Doc._id d := d]> c).

(** [date: { $gte: start, $lt: end }]; a bound that is an invalid Date
    selects nothing. *)
Definition in_range (start end_ : Date) (t : Z) : Prop :=
  match start, end_ with
  | Some s, Some e => s <= t < e
  | _, _ => False
  end.

Global Instance in_range_dec start end_ t : Decision (in_range start end_ t).
Proof. destruct start, end_; simpl; apply _. Defined.

(** [{ $match: { date: { $gte: start, $lt: end } } }] *)
Definition stage_match (start end_ : Date) (l : list Doc.t) : list Doc.t :=
  filter (λ d, in_range start end_ (Doc.date d)) l.

(** [{ $group: { _id: "$sector", amount: { $sum: "$amount" } } }]; the rows
    come in the order of the group table. *)
Definition group_table (l : list Doc.t) : gmap string Z :=
  foldl (λ g d, <[Doc.sector d := default 0 (g !! Doc.sector d) + Doc.amount d]> g)
        ∅ l.

Definition stage_group (l : list Doc.t) : list Group.t :=
  (λ kv, {| Group._id := fst kv; Group.amount := snd kv |})
    <$> map_to_list (group_table l).

(** [Model.aggregate([$match, $group])] *)
Definition aggregate (c : coll) (start end_ : Date) : option (list Group.t) :=
  Some (stage_group (stage_match start end_ (records c))).

(** [sort({ date: -1 })] *)
Definition date_desc (a b : Doc.t) : Prop := Doc.date b <= Doc.date a.

Global Instance date_desc_dec a b : Decision (date_desc a b).
Proof. unfold date_desc. apply _. Defined.

(** [Model.find({ sector, date: { $gte: start, $lt: end } }).sort({ date: -1 })];
    the conditions are cast by the schema first. *)
Definition find_sorted (c : coll) (sector : string) (start end_ : Date)
    : option (list Doc.t) :=
  s ← castDate start;
  e ← castDate end_;
  Some (merge_sort date_desc
          (filter (λ d, Doc.sector d = sector ∧ in_range (Some s) (Some e) (Doc.date d))
                  (records c))).

(** [Model.findById(id)] *)
Definition findById (rt : Runtime) (c : coll) (id : string)
    : option (option Doc.t) :=
  i ← castObjectId rt id;
  Some (c !! i).

(** [Model.findByIdAndDelete(id)] *)
Definition findByIdAndDelete (rt : Runtime) (c : coll) (id : string)
    : option (option Doc.t * coll) :=
  i ← castObjectId rt id;
  Some (c !! i, delete i c).

End Store.

(** ** The application: [src/index.js] *)

(** [req.body] of a create request *)
Module Body.
Record t : Type := {
  name : JS.value;
  sector : JS.value;
  amount : JS.value;
  note : JS.value;
  date : JS.value
}.
End Body.

(** An entry of [bySector] *)
Module Entry.
Record t : Type := { sector : string; amount : Z }.
End Entry.

Module App.
Import JSDate JS Store.

(** The two collections behind the models [Spend] and [Income]. *)
Record db : Type := { spends : coll; incomes : coll }.

Definition set_spends (c : coll) (s : db) : db :=
  {| spends := c; incomes := incomes s |}.
Definition set_incomes (c : coll) (s : db) : db :=
  {| spends := spends s; incomes := c |}.

Inductive json_body : Type :=
| Text (s : string)
| Error (error : string)
| Record_ (d : Doc.t)
| Records (l : list Doc.t)
| Summary (total : Z) (bySector : list Entry.t)
| Ok (ok : bool).

Record response : Type := { status : Z; body : json_body }.

(** [res.status(n).json(b)], and [res.json(b)] with the default status. *)
Definition res_status_json (n : Z) (b : json_body) : response :=
  {| status := n; body := b |}.
Definition res_json (b : json_body) : response := res_status_json 200 b.

Record range : Type := { start : Date; end_ : Date }.

(** [new Date(v)] for a request value [v] *)
Definition new_Date (rt : Runtime) (v : value) : Date :=
  match v with
  | None => None
  | Some (JNum n) => TimeClip n
  | Some (JBool b) => TimeClip (if b then 1 else 0)
  | Some JNull => TimeClip 0
  | Some (JStr s) => Date_parse rt (JStr s)
  | Some (JArr l) => Date_parse rt (JArr l)
  | Some (JObj l) => Date_parse rt (JObj l)
  end.

(** [getMonthRange(yyyymm)] (lines 18-30); [now] is the time value of
    [new Date()], and [None] is an omitted [month] query parameter. *)
Definition getMonthRange (rt : Runtime) (now : Z) (yyyymm : option string) : range :=
  let current :=
    let now := Some now in
    Date_ymd (tza rt) (getFullYear (tza rt) now) (getMonth (tza rt) now) 1 in
  let start :=
    match yyyymm with
    | Some s =>
        if String.eqb s "" then current
        else
          let parts := Number <$> split "-" s in
          let year := default None (parts !! 0%nat) in
          let month := default None (parts !! 1%nat) in
          Date_ymd (tza rt) year (m ← month; Some (m - 1)) 1
    | None => current
    end in
  let end_ := start in
  let end_ := setMonth (tza rt) end_ (m ← getMonth (tza rt) end_; Some (m + 1)) in
  {| start := start; end_ := end_ |}.

(** [GET /] *)
Definition get_root : response :=
  {| status := 200; body := Text "Edolog backend running" |}.

Definition server_error : response := res_status_json 500 (Error "Server error").
Definition not_found : response := res_status_json 404 (Error "Not found").

(** *** Spends *)

(** [POST /api/spends] *)
Definition post_spends (rt : Runtime) (now : Z) (b : Body.t) (s : db)
    : response * db :=
  if negb (truthy (Body.name b)) || negb (truthy (Body.sector b))
     || nullish (Body.amount b)
  then (res_status_json 400 (Error "name, sector, amount required"), s)
  else
    match
      Store.create SpendSchema rt now (spends s)
        {| NewDoc.name := Body.name b;
           NewDoc.sector := Body.sector b;
           NewDoc.amount := Body.amount b;
           NewDoc.note :=
             if truthy (Body.note b) then Body.note b else Some (JStr "");
           NewDoc.date :=
             Some (if truthy (Body.date b) then new_Date rt (Body.date b)
                   else Some now) |}
    with
    | Some (spend, c) => (res_status_json 201 (Record_ spend), set_spends c s)
    | None => (server_error, s)
    end.

(** [GET /api/spends/summary] *)
Definition get_spends_summary (rt : Runtime) (now : Z) (month : option string)
    (s : db) : response :=
  let r := getMonthRange rt now month in
  match Store.aggregate (spends s) (start r) (end_ r) with
  | Some result =>
      let total := foldl (λ sum r, sum + Group.amount r) 0 result in
      let bySector :=
        (λ r, {| Entry.sector := Group._id r; Entry.amount := Group.amount r |})
          <$> result in
      res_json (Summary total bySector)
  | None => server_error
  end.

(** [GET /api/sectors/:sector/spends] *)
Definition get_sector_spends (rt : Runtime) (now : Z) (sector : string)
    (month : option string) (s : db) : response :=
  let r := getMonthRange rt now month in
  match Store.find_sorted (spends s) sector (start r) (end_ r) with
  | Some spends => res_json (Records spends)
  | None => server_error
  end.

(** [GET /api/spends/:id] *)
Definition get_spend (rt : Runtime) (id : string) (s : db) : response :=
  match Store.findById rt (spends s) id with
  | Some (Some spend) => res_json (Record_ spend)
  | Some None => not_found
  | None => server_error
  end.

(** [DELETE /api/spends/:id] *)
Definition delete_spend (rt : Runtime) (id : string) (s : db) : response * db :=
  match Store.findByIdAndDelete rt (spends s) id with
  | Some (Some _, c) => (res_json (Ok true), set_spends c s)
  | Some (None, c) => (not_found, set_spends c s)
  | None => (server_error, s)
  end.

(** *** Incomes *)

(** [POST /api/incomes] *)
Definition post_incomes (rt : Runtime) (now : Z) (b : Body.t) (s : db)
    : response * db :=
  if negb (truthy (Body.name b)) || negb (truthy (Body.sector b))
     || nullish (Body.amount b)
  then (res_status_json 400 (Error "name, sector, amount required"), s)
  else
    match
      Store.create IncomeSchema rt now (incomes s)
        {| NewDoc.name := Body.name b;
           NewDoc.sector := Body.sector b;
           NewDoc.amount := Body.amount b;
           NewDoc.note :=
             if truthy (Body.note b) then Body.note b else Some (JStr "");
           NewDoc.date :=
             Some (if truthy (Body.date b) then new_Date rt (Body.date b)
                   else Some now) |}
    with
    | Some (income, c) => (res_status_json 201 (Record_ income), set_incomes c s)
    | None => (server_error, s)
    end.

(** [GET /api/incomes/summary] *)
Definition get_incomes_summary (rt : Runtime) (now : Z) (month : option string)
    (s : db) : response :=
  let r := getMonthRange rt now month in
  match Store.aggregate (incomes s) (start r) (end_ r) with
  | Some result =>
      let total := foldl (λ sum r, sum + Group.amount r) 0 result in
      let bySector :=
        (λ r, {| Entry.sector := Group._id r; Entry.amount := Group.amount r |})
          <$> result in
      res_json (Summary total bySector)
  | None => server_error
  end.

(** [GET /api/incomes/by-sector/:sector] *)
Definition get_sector_incomes (rt : Runtime) (now : Z) (sector : string)
    (month : option string) (s : db) : response :=
  let r := getMonthRange rt now month in
  match Store.find_sorted (incomes s) sector (start r) (end_ r) with
  | Some incomes => res_json (Records incomes)
  | None => server_error
  end.

(** [GET /api/incomes/:id] *)
Definition get_income (rt : Runtime) (id : string) (s : db) : response :=
  match Store.findById rt (incomes s) id with
  | Some (Some income) => res_json (Record_ income)
  | Some None => not_found
  | None => server_error
  end.

(** [DELETE /api/incomes/:id] *)
Definition delete_income (rt : Runtime) (id : string) (s : db) : response * db :=
  match Store.findByIdAndDelete rt (incomes s) id with
  | Some (Some _, c) => (res_json (Ok true), set_incomes c s)
  | Some (None, c) => (not_found, set_incomes c s)
  | None => (server_error, s)
  end.

End App.

(** ** Vocabulary of the properties *)

Module Props.
Import JSDate JS Store App.

Definition digit_char (d : Z) : ascii := ascii_of_N (Z.to_N (48 + d)).

(** The [k] low decimal digits of [n], most significant first. *)
Fixpoint pad (k : nat) (n : Z) : string :=
  match k with
  | O => EmptyString
  | S k' => pad k' (n / 10) +:+ String (digit_char (n mod 10)) EmptyString
  end.

(** The month string ["YYYY-MM"] of year [y] and month [m]. *)
Definition month_string (y m : Z) : string := pad 4 y +:+ "-" +:+ pad 2 m.

(** Year, month (1-based), day of month and milliseconds since midnight of a
    Date, in local time. *)
Definition local_fields (rt : Runtime) (d : Date) : option (Z * Z * Z * Z) :=
  y ← getFullYear (tza rt) d;
  m ← getMonth (tza rt) d;
  dt ← getDate (tza rt) d;
  ms ← getTimeOfDay (tza rt) d;
  Some (y, m + 1, dt, ms).

(** [r] is the calendar month [M] (1-based) of year [Y]: it starts at the
    first instant of day 1 of that month and ends at the first instant of
    day 1 of the month after it. *)
Definition is_month_range (rt : Runtime) (r : range) (Y M : Z) : Prop :=
  local_fields rt (start r) = Some (Y, M, 1, 0)
  ∧ local_fields rt (end_ r) =
      Some (if M =? 12 then Y + 1 else Y, if M =? 12 then 1 else M + 1, 1, 0).

(** Years that keep every month start well inside the range of time values. *)
Definition yearInRange (ym : Z) : Prop := -270000 <= ym <= 270000.

(** Sum of the amounts of a list of records. *)
Definition sum_amounts (l : list Doc.t) : Z :=
  foldr (λ d acc, Doc.amount d + acc) 0 l.

Definition sum_entries (l : list Entry.t) : Z :=
  foldr (λ e acc, Entry.amount e + acc) 0 l.

(** Sum of the values of the rows of a group table. *)
Definition sum_snd (l : list (string * Z)) : Z :=
  foldr (λ kv acc, snd kv + acc) 0 l.

(** Exchange of the two collections. *)
Definition swap (s : db) : db := {| spends := incomes s; incomes := spends s |}.

(** A runtime for examples.  Local time is UTC.  A date string parses when
    it is a calendar date ["YYYY-MM-DD"], to midnight UTC of that day.  An
    identifier casts when it is a string of 24 hexadecimal digits.  Values
    that are not strings do not cast to String, and only numbers cast to
    Number. *)
Definition parse_date_only (s : string) : Date :=
  match split "-" s with
  | [ys; ms; ds] =>
      if (String.length ys =? 4)%nat && (String.length ms =? 2)%nat
         && (String.length ds =? 2)%nat
      then
        y ← Number ys;
        m ← Number ms;
        d ← Number ds;
        let days := Day (monthStart (y + m / 12) (m mod 12)) - Day (monthStart y (m - 1)) in
        if (1 <=? m) && (m <=? 12) && (1 <=? d) && (d <=? days)
        then TimeClip (MakeDate (MakeDay y (m - 1) d) 0)
        else None
      else None
  | _ => None
  end.

Definition hex_value (c : ascii) : option N :=
  let n := N_of_ascii c in
  if ((48 <=? n) && (n <=? 57))%N then Some (n - 48)%N
  else if ((97 <=? n) && (n <=? 102))%N then Some (n - 87)%N
  else if ((65 <=? n) && (n <=? 70))%N then Some (n - 55)%N
  else None.

Fixpoint parse_hex (acc : N) (s : string) : option N :=
  match s with
  | EmptyString => Some acc
  | String c s' => d ← hex_value c; parse_hex (16 * acc + d)%N s'
  end.

Definition rt0 : Runtime :=
  {| tza := 0;
     Date_parse := λ v, match v with
                        | JStr s => parse_date_only s
                        | _ => None
                        end;
     castObjectId := λ s, if (String.length s =? 24)%nat then parse_hex 0 s else None;
     castString_other := λ _, None;
     castNumber_other := λ _, None |}.

(** The same runtime in a zone five and a half hours ahead of UTC. *)
Definition rt_east : Runtime :=
  {| tza := 19800000;
     Date_parse := Date_parse rt0;
     castObjectId := castObjectId rt0;
     castString_other := castString_other rt0;
     castNumber_other := castNumber_other rt0 |}.

(** The answer to a create request that lacks a required field. *)
Definition required_error : response :=
  res_status_json 400 (Error "name, sector, amount required").

(** An empty database and a create request for examples. *)
Definition db0 : db := {| spends := ∅; incomes := ∅ |}.

Definition coffee (amount date : value) : Body.t :=
  {| Body.name := Some (JStr "Coffee"); Body.sector := Some (JStr "Food");
     Body.amount := amount; Body.note := None; Body.date := date |}.

(** A database with four spends: three in February 2024 (UTC), one in March. *)
Definition spend (id : N) (sector : string) (amount date : Z) : Doc.t :=
  {| Doc._id := id; Doc.name := "item"; Doc.sector := sector;
     Doc.amount := amount; Doc.note := Some ""; Doc.date := date;
     Doc.createdAt := date; Doc.updatedAt := date |}.

Definition db1 : db :=
  {| spends :=
       <[1%N := spend 1 "Food" 5 1707000000000]>
         (<[2%N := spend 2 "Rent" 100 1706745600000]>
            (<[3%N := spend 3 "Food" 7 1708000000000]>
               (<[4%N := spend 4 "Food" 9 1709251200000]> ∅)));
     incomes := ∅ |}.

(** Whether character [c] occurs in [s]. *)
Fixpoint contains (c : ascii) (s : string) : bool :=
  match s with
  | EmptyString => false
  | String a s' => Ascii.eqb a c || contains c s'
  end.

(** Number of days of month [m] (1-based) of year [y]. *)
Definition days_in_month (y m : Z) : Z :=
  match m with
  | 2 => DaysInYear y - 337
  | 4 | 6 | 9 | 11 => 30
  | _ => 31
  end.

(** The month after month [m] of year [y]. *)
Definition next_month (y m : Z) : Z * Z :=
  if m =? 12 then (y + 1, 1) else (y, m + 1).

(** The parts of an answer. *)
Definition summary_of (r : response) : option (Z * list Entry.t) :=
  match body r with
  | Summary total bySector => Some (total, bySector)
  | _ => None
  end.

Definition summary_total (r : response) : option Z := fst <$> summary_of r.

Definition records_of (r : response) : option (list Doc.t) :=
  match body r with
  | Records l => Some l
  | _ => None
  end.

(** Every record of a collection is stored under its own identifier and has
    a non-empty name and a non-empty sector. *)
Definition wf_coll (c : coll) : Prop :=
  map_Forall (λ i d, Doc._id d = i ∧ Doc.name d ≠ "" ∧ Doc.sector d ≠ "") c.

Definition wf_db (s : db) : Prop := wf_coll (spends s) ∧ wf_coll (incomes s).

(** The amount a record adds to the total of a range. *)
Definition counted (r : range) (d : Doc.t) : Z :=
  if decide (in_range (start r) (end_ r) (Doc.date d)) then Doc.amount d else 0.

(** A required value that is missing: [undefined], [null] or the empty
    string. *)
Definition missing (v : value) : Prop :=
  v = None ∨ v = Some JNull ∨ v = Some (JStr "").

(** C4 as it is stated: the persisted date is the current time when the
    date is omitted, and otherwise the date parsed from the given value. *)
Definition date_as_stated (rt : Runtime) (now : Z) (b : Body.t) (s : db) : Prop :=
  ∀ d s', post_spends rt now b s = (res_status_json 201 (Record_ d), s') →
    match Body.date b with
    | None => Doc.date d = now
    | Some v => new_Date rt (Some v) = Some (Doc.date d)
    end.

(** C5 as it is stated: with name and sector present and an amount that is
    zero or negative, the record is persisted with that amount and the
    response is 201. *)
Definition accepted_as_stated (rt : Runtime) (now : Z) (b : Body.t) (s : db) : Prop :=
  ∀ a, is_Some (Body.name b) → is_Some (Body.sector b) →
    Body.amount b = Some (JNum a) → a <= 0 →
    ∃ d s', post_spends rt now b s = (res_status_json 201 (Record_ d), s')
            ∧ spends s' !! Doc._id d = Some d ∧ Doc.amount d = a.

End Props.

(** * Properties *)

Module JSDateFacts.
Import JSDate Props.

Local Ltac div_lia :=
  Z.to_euclidean_division_equations; lia.

Lemma DayFromYear_succ y : DayFromYear (y + 1) = DayFromYear y + DaysInYear y.
Proof.
  unfold DayFromYear, DaysInYear.
  repeat match goal with
         | |- context [?a =? ?b] => destruct (Z.eqb_spec a b); simpl
         end; div_lia.
Qed.

Lemma DaysInYear_cases y : DaysInYear y = 365 ∨ DaysInYear y = 366.
Proof.
  unfold DaysInYear.
  repeat match goal with
         | |- context [?a =? ?b] => destruct (Z.eqb_spec a b); simpl
         end; auto.
Qed.

Lemma DayFromYear_lt y1 y2 : y1 < y2 → DayFromYear y1 < DayFromYear y2.
Proof. unfold DayFromYear. intros. div_lia. Qed.

Lemma msPerDay_pos : 0 < msPerDay.
Proof. reflexivity. Qed.

Lemma YearFromTime_days t :
  DayFromYear (YearFromTime t) <= Day t < DayFromYear (YearFromTime t + 1).
Proof.
  unfold YearFromTime. cbv zeta.
  generalize (Day t) as d. intros d.
  set (y := 1970 + 400 * d / 146097).
  assert (Hlo : DayFromYear (y - 1) <= d) by (unfold DayFromYear, y; div_lia).
  assert (Hhi : d < DayFromYear (y + 2)) by (unfold DayFromYear, y; div_lia).
  destruct (Z.leb_spec (DayFromYear (y + 1)) d).
  - replace (y + 1 + 1) with (y + 2) by lia. lia.
  - destruct (Z.leb_spec (DayFromYear y) d).
    + lia.
    + replace (y - 1 + 1) with y by lia. lia.
Qed.

Lemma TimeFromYear_le_iff y t : TimeFromYear y <= t ↔ DayFromYear y <= Day t.
Proof.
  unfold TimeFromYear, Day. pose proof msPerDay_pos.
  split; intros Hle.
  - apply Z.div_le_lower_bound; lia.
  - pose proof (Z.mul_div_le t msPerDay H). nia.
Qed.

(** [YearFromTime t] is a year whose start is not after [t] ... *)
Lemma YearFromTime_spec t :
  TimeFromYear (YearFromTime t) <= t < TimeFromYear (YearFromTime t + 1).
Proof.
  pose proof (YearFromTime_days t) as [Hl Hu].
  split; [by apply TimeFromYear_le_iff |].
  apply Z.nle_gt. rewrite TimeFromYear_le_iff. lia.
Qed.

(** ... and it is the only such year, hence the largest. *)
Lemma YearFromTime_unique_days y t :
  DayFromYear y <= Day t < DayFromYear (y + 1) → YearFromTime t = y.
Proof.
  intros [Hl Hu]. pose proof (YearFromTime_days t) as [Hl' Hu'].
  destruct (Z.lt_trichotomy (YearFromTime t) y) as [Hlt | [-> | Hgt]]; [| done |].
  - destruct (Z.eq_dec (YearFromTime t + 1) y) as [<- | Hne]; [lia |].
    pose proof (DayFromYear_lt (YearFromTime t + 1) y). lia.
  - destruct (Z.eq_dec (y + 1) (YearFromTime t)) as [Heq | Hne].
    + rewrite <- Heq in Hl'. lia.
    + pose proof (DayFromYear_lt (y + 1) (YearFromTime t)). lia.
Qed.

Lemma YearFromTime_largest y t : TimeFromYear y <= t → y <= YearFromTime t.
Proof.
  rewrite TimeFromYear_le_iff. intros Hy.
  pose proof (YearFromTime_days t) as [_ Hu].
  destruct (Z.le_gt_cases y (YearFromTime t)) as [|Hgt]; [done |].
  destruct (Z.eq_dec (YearFromTime t + 1) y) as [<- | Hne]; [lia |].
  pose proof (DayFromYear_lt (YearFromTime t + 1) y). lia.
Qed.

(** The local fields of an instant [tod] milliseconds into day [dt] of month
    [mn] of year [ym]. *)
Lemma fields_of_month_day ym mn dt tod :
  0 <= mn < 12 → 1 <= dt <= 28 → 0 <= tod < msPerDay →
  let t := MakeDate (Day (monthStart ym mn) + dt - 1) tod in
  YearFromTime t = ym ∧ MonthFromTime t = mn ∧ DateFromTime t = dt
  ∧ TimeWithinDay t = tod.
Proof.
  intros Hmn Hdt Htod. cbv zeta.
  pose proof msPerDay_pos as Hpos.
  set (leap := if DaysInYear ym =? 366 then 1 else 0).
  set (before := Day (monthStart ym mn) - DayFromYear ym).
  assert (Hday : Day (monthStart ym mn) = DayFromYear ym + before) by (unfold before; lia).
  assert (Hbefore : before = match mn with
    | 0 => 0 | 1 => 31 | 2 => 59 + leap | 3 => 90 + leap | 4 => 120 + leap
    | 5 => 151 + leap | 6 => 181 + leap | 7 => 212 + leap | 8 => 243 + leap
    | 9 => 273 + leap | 10 => 304 + leap | _ => 334 + leap end).
  { unfold before, monthStart, Day. fold leap.
    rewrite (Z.mul_comm msPerDay), Z.div_mul by lia. lia. }
  set (t := MakeDate (Day (monthStart ym mn) + dt - 1) tod).
  assert (HDay : Day t = DayFromYear ym + before + dt - 1).
  { unfold t, MakeDate. rewrite Hday. unfold Day.
    rewrite Z.div_add_l by lia. rewrite Z.div_small by lia. lia. }
  assert (HT : TimeWithinDay t = tod).
  { unfold t, MakeDate, TimeWithinDay.
    rewrite Z.add_comm, Z.mod_add by lia. apply Z.mod_small. lia. }
  clearbody t.
  assert (Hleap : 0 <= leap <= 1 ∧ DaysInYear ym = 365 + leap).
  { unfold leap. destruct (DaysInYear_cases ym) as [-> | ->]; simpl; lia. }
  assert (Hb : 0 <= before ∧ before + dt - 1 < DaysInYear ym).
  { assert (mn = 0 ∨ mn = 1 ∨ mn = 2 ∨ mn = 3 ∨ mn = 4 ∨ mn = 5 ∨ mn = 6
            ∨ mn = 7 ∨ mn = 8 ∨ mn = 9 ∨ mn = 10 ∨ mn = 11) as Hc by lia.
    destruct_or!; subst mn; lia. }
  assert (HY : YearFromTime t = ym).
  { apply YearFromTime_unique_days. rewrite DayFromYear_succ, HDay. lia. }
  assert (HDW : DayWithinYear t = before + dt - 1).
  { unfold DayWithinYear. rewrite HY, HDay. lia. }
  assert (HL : InLeapYear t = leap).
  { unfold InLeapYear. by rewrite HY. }
  assert (HM : MonthFromTime t = mn).
  { unfold MonthFromTime. rewrite HDW, HL.
    assert (mn = 0 ∨ mn = 1 ∨ mn = 2 ∨ mn = 3 ∨ mn = 4 ∨ mn = 5 ∨ mn = 6
            ∨ mn = 7 ∨ mn = 8 ∨ mn = 9 ∨ mn = 10 ∨ mn = 11) as Hc by lia.
    destruct_or!; subst mn; rewrite Hbefore;
      repeat match goal with
             | |- context [?a <? ?b] => destruct (Z.ltb_spec a b); try lia
             end. }
  split_and!; [done | done | | done].
  unfold DateFromTime. rewrite HM, HDW, HL. clear HM.
  assert (mn = 0 ∨ mn = 1 ∨ mn = 2 ∨ mn = 3 ∨ mn = 4 ∨ mn = 5 ∨ mn = 6
          ∨ mn = 7 ∨ mn = 8 ∨ mn = 9 ∨ mn = 10 ∨ mn = 11) as Hc by lia.
  destruct_or!; subst mn; simpl in Hbefore |- *; lia.
Qed.

(** Months are normalised into the year: month [12] of [y] is month [0] of
    [y + 1], month [-1] is month [11] of [y - 1]. *)
Lemma MakeDay_first year month :
  MakeDate (MakeDay year month 1) 0 = monthStart (year + month / 12) (month mod 12).
Proof.
  unfold MakeDay, MakeDate. cbv zeta.
  generalize (year + month / 12) (month mod 12). intros ym mn.
  unfold monthStart, Day. cbv zeta.
  rewrite (Z.mul_comm msPerDay), Z.div_mul by (unfold msPerDay; lia). lia.
Qed.

Lemma monthStart_fields ym mn :
  0 <= mn < 12 →
  YearFromTime (monthStart ym mn) = ym ∧ MonthFromTime (monthStart ym mn) = mn
  ∧ DateFromTime (monthStart ym mn) = 1 ∧ TimeWithinDay (monthStart ym mn) = 0.
Proof.
  intros Hmn.
  pose proof (fields_of_month_day ym mn 1 0 Hmn) as H.
  cbv zeta in H.
  replace (MakeDate (Day (monthStart ym mn) + 1 - 1) 0) with (monthStart ym mn) in H.
  - apply H; unfold msPerDay; lia.
  - pose proof (MakeDay_first ym mn) as E. unfold MakeDay in E. cbv zeta in E.
    rewrite (Z.mod_small mn 12), (Z.div_small mn 12), Z.add_0_r in E by lia.
    by rewrite E.
Qed.

Lemma monthStart_range ym mn tza :
  yearInRange ym → 0 <= mn < 12 → - msPerDay <= tza <= msPerDay →
  TimeClip (UTC tza (monthStart ym mn)) = Some (monthStart ym mn - tza).
Proof.
  unfold yearInRange, TimeClip, UTC. intros Hy Hmn Htz.
  destruct (Z.ltb_spec maxTime (Z.abs (monthStart ym mn - tza))) as [Hbad|]; [|done].
  exfalso. revert Hbad Htz. unfold monthStart, maxTime, msPerDay, DayFromYear.
  assert (mn = 0 ∨ mn = 1 ∨ mn = 2 ∨ mn = 3 ∨ mn = 4 ∨ mn = 5 ∨ mn = 6
          ∨ mn = 7 ∨ mn = 8 ∨ mn = 9 ∨ mn = 10 ∨ mn = 11) as Hc by lia.
  destruct (DaysInYear ym =? 366); destruct_or!; subst mn; cbv zeta; div_lia.
Qed.

(** [new Date(y, m, 1)] is the first instant of the normalised month. *)
Lemma Date_ymd_first tza y m :
  let ym := MakeFullYear y + m / 12 in
  let mn := m mod 12 in
  yearInRange ym → - msPerDay <= tza <= msPerDay →
  Date_ymd tza (Some y) (Some m) 1 = Some (monthStart ym mn - tza).
Proof.
  intros ym mn Hy Htz. unfold Date_ymd. simpl.
  rewrite MakeDay_first. apply monthStart_range; [done | | done].
  apply Z.mod_pos_bound. lia.
Qed.

(** [setMonth(getMonth() + 1)] on the first instant of a month gives the first
    instant of the next one. *)
Lemma setMonth_next tza ym mn :
  0 <= mn < 12 → yearInRange ym → yearInRange (ym + 1) →
  - msPerDay <= tza <= msPerDay →
  let d := Some (monthStart ym mn - tza) in
  setMonth tza d (m ← getMonth tza d; Some (m + 1)) =
    Some (monthStart (ym + (mn + 1) / 12) ((mn + 1) mod 12) - tza).
Proof.
  intros Hmn Hy Hy' Htz. cbv zeta. unfold setMonth, getMonth, LocalTime. simpl.
  replace (monthStart ym mn - tza + tza) with (monthStart ym mn) by lia.
  destruct (monthStart_fields ym mn Hmn) as (-> & -> & -> & ->).
  rewrite MakeDay_first. apply monthStart_range; [| | done].
  - unfold yearInRange in *.
    assert ((mn + 1) / 12 = 0 ∨ (mn + 1) / 12 = 1) by div_lia. lia.
  - apply Z.mod_pos_bound. lia.
Qed.

End JSDateFacts.

Module JSFacts.
Import JSDate JS Props.

Lemma digit_value_digit_char d :
  0 <= d <= 9 → digit_value (digit_char d) = Some d.
Proof.
  intros Hd.
  assert (d = 0 ∨ d = 1 ∨ d = 2 ∨ d = 3 ∨ d = 4 ∨ d = 5 ∨ d = 6 ∨ d = 7
          ∨ d = 8 ∨ d = 9) as Hc by lia.
  destruct_or!; subst d; reflexivity.
Qed.

Lemma digit_not_dash c d : digit_value c = Some d → Ascii.eqb c "-" = false.
Proof.
  intros Hc. destruct (Ascii.eqb_spec c "-") as [-> |]; [|done].
  discriminate Hc.
Qed.

Lemma parse_digits_app acc s1 s2 :
  parse_digits acc (s1 +:+ s2) = a ← parse_digits acc s1; parse_digits a s2.
Proof.
  revert acc. induction s1 as [|c s1 IH]; intros acc; simpl; [done |].
  destruct (digit_value c) as [d|]; simpl; [apply IH | done].
Qed.

Lemma parse_digits_pad k n acc :
  0 <= n < 10 ^ Z.of_nat k →
  parse_digits acc (pad k n) = Some (acc * 10 ^ Z.of_nat k + n).
Proof.
  revert n acc. induction k as [|k IH]; intros n acc Hn.
  - simpl in *. f_equal. lia.
  - rewrite Nat2Z.inj_succ, Z.pow_succ_r in * by lia.
    simpl. rewrite parse_digits_app, IH by (Z.to_euclidean_division_equations; lia).
    simpl. rewrite digit_value_digit_char by (Z.to_euclidean_division_equations; lia).
    simpl. f_equal. Z.to_euclidean_division_equations; lia.
Qed.

Lemma parse_digits_nonneg acc s n : 0 <= acc → parse_digits acc s = Some n → 0 <= n.
Proof.
  revert acc. induction s as [|c s IH]; intros acc Hacc Hs; simpl in Hs.
  - injection Hs as <-. done.
  - destruct (digit_value c) as [d|] eqn:Hc; simpl in Hs; [|done].
    apply (IH (10 * acc + d)); [|done].
    unfold digit_value in Hc. cbv zeta in Hc.
    destruct (_ && _) eqn:Hb in Hc; [|done]. injection Hc as <-. lia.
Qed.

Lemma Number_pad k n : 0 <= n < 10 ^ Z.of_nat k → Number (pad k n) = Some n.
Proof. intros Hn. unfold Number. by rewrite parse_digits_pad. Qed.

Lemma Number_pad4 y : 0 <= y <= 9999 → Number (pad 4 y) = Some y.
Proof. intros. apply Number_pad. change (10 ^ Z.of_nat 4) with 10000. lia. Qed.

Lemma Number_pad2 m : 0 <= m <= 99 → Number (pad 2 m) = Some m.
Proof. intros. apply Number_pad. change (10 ^ Z.of_nat 2) with 100. lia. Qed.

(** A string of digits holds no separator. *)
Lemma split_digits acc s n : parse_digits acc s = Some n → split "-" s = [s].
Proof.
  revert acc. induction s as [|c s IH]; intros acc Hs; simpl in *; [done |].
  destruct (digit_value c) as [d|] eqn:Hc; simpl in Hs; [|done].
  rewrite (digit_not_dash c d Hc), (IH _ Hs). done.
Qed.

Lemma split_digits_dash acc s1 s2 n :
  parse_digits acc s1 = Some n →
  split "-" (s1 +:+ "-" +:+ s2) = s1 :: split "-" s2.
Proof.
  revert acc. induction s1 as [|c s1 IH]; intros acc Hs; simpl in *; [done |].
  destruct (digit_value c) as [d|] eqn:Hc; simpl in Hs; [|done].
  rewrite (digit_not_dash c d Hc), (IH _ Hs). done.
Qed.

Lemma app_dash_nonempty s1 s2 : String.eqb (s1 +:+ "-" +:+ s2) "" = false.
Proof. by destruct s1. Qed.

End JSFacts.

Module RangeFacts.
Import JSDate JS Store App Props JSDateFacts JSFacts.

(** On ["<digits>-<digits>"] the year and the month are the two numbers. *)
Lemma getMonthRange_digits rt now ys ms y m :
  Number ys = Some y → Number ms = Some m →
  let start := Date_ymd (tza rt) (Some y) (Some (m - 1)) 1 in
  getMonthRange rt now (Some (ys +:+ "-" +:+ ms)) =
    {| start := start;
       end_ := setMonth (tza rt) start (k ← getMonth (tza rt) start; Some (k + 1)) |}.
Proof.
  intros Hy Hm. unfold getMonthRange. cbv zeta.
  rewrite app_dash_nonempty.
  rewrite (split_digits_dash 0 ys ms y Hy), (split_digits 0 ms m Hm).
  simpl. rewrite Hy, Hm. done.
Qed.

Lemma local_fields_monthStart rt ym mn :
  0 <= mn < 12 →
  local_fields rt (Some (monthStart ym mn - tza rt)) = Some (ym, mn + 1, 1, 0).
Proof.
  intros Hmn. unfold local_fields, getFullYear, getMonth, getDate, getTimeOfDay.
  simpl. unfold LocalTime.
  replace (monthStart ym mn - tza rt + tza rt) with (monthStart ym mn) by lia.
  by destruct (monthStart_fields ym mn Hmn) as (-> & -> & -> & ->).
Qed.

(** The range of ["<y>-<m>"] is the month [m], normalised into the year, of
    the year the Date constructor takes [y] for. *)
Lemma getMonthRange_normalised rt now ys ms y m :
  Number ys = Some y → Number ms = Some m →
  - msPerDay <= tza rt <= msPerDay →
  let Y := MakeFullYear y + (m - 1) / 12 in
  yearInRange Y → yearInRange (Y + 1) →
  is_month_range rt (getMonthRange rt now (Some (ys +:+ "-" +:+ ms)))
    Y ((m - 1) mod 12 + 1).
Proof.
  intros Hy Hm Htz Y HY HY'.
  rewrite (getMonthRange_digits rt now ys ms y m Hy Hm). cbv zeta.
  rewrite Date_ymd_first by done. fold Y.
  assert (Hmn : 0 <= (m - 1) mod 12 < 12) by (apply Z.mod_pos_bound; lia).
  rewrite setMonth_next by done.
  split; simpl.
  - by apply local_fields_monthStart.
  - set (mn := (m - 1) mod 12) in *.
    assert (Hn : 0 <= (mn + 1) mod 12 < 12) by (apply Z.mod_pos_bound; lia).
    rewrite local_fields_monthStart by done.
    destruct (Z.eqb_spec (mn + 1) 12) as [E | NE].
    + rewrite E. reflexivity.
    + rewrite Z.div_small, Z.mod_small by lia. do 4 f_equal; lia.
Qed.

End RangeFacts.

Module StoreFacts.
Import JSDate JS Store App Props.

(** *** Sums over the group table *)

Lemma sum_snd_perm l1 l2 : l1 ≡ₚ l2 → sum_snd l1 = sum_snd l2.
Proof. induction 1; simpl in *; lia. Qed.

Lemma sum_snd_insert (g : gmap string Z) k a :
  sum_snd (map_to_list (<[k := default 0 (g !! k) + a]> g)) =
    sum_snd (map_to_list g) + a.
Proof.
  destruct (g !! k) as [v|] eqn:Hk; simpl.
  - rewrite <- insert_delete_eq.
    rewrite (sum_snd_perm _ _ (map_to_list_insert (delete k g) k (v + a)
                                 (lookup_delete_eq g k))).
    rewrite <- (sum_snd_perm _ _ (map_to_list_delete g k v Hk)).
    simpl. lia.
  - rewrite (sum_snd_perm _ _ (map_to_list_insert g k (0 + a) Hk)).
    simpl. lia.
Qed.

Lemma group_table_acc_sum (g : gmap string Z) l :
  sum_snd (map_to_list
    (foldl (λ g d, <[Doc.sector d := default 0 (g !! Doc.sector d) + Doc.amount d]> g)
           g l)) =
    sum_snd (map_to_list g) + sum_amounts l.
Proof.
  revert g. induction l as [|d l IH]; intros g; simpl; [lia |].
  rewrite IH, sum_snd_insert. lia.
Qed.

(** Grouping keeps the grand total. *)
Lemma group_table_sum l : sum_snd (map_to_list (group_table l)) = sum_amounts l.
Proof.
  unfold group_table. rewrite group_table_acc_sum, map_to_list_empty. simpl. lia.
Qed.

Lemma reduce_sum (result : list Group.t) acc :
  foldl (λ sum r, sum + Group.amount r) acc result =
    acc + foldr (λ r a, Group.amount r + a) 0 result.
Proof.
  revert acc. induction result as [|r l IH]; intros acc; simpl; [lia |].
  rewrite IH. lia.
Qed.

Lemma stage_group_sum l :
  foldr (λ r a, Group.amount r + a) 0 (stage_group l) = sum_amounts l.
Proof.
  rewrite <- group_table_sum. unfold stage_group, sum_snd.
  induction (map_to_list (group_table l)) as [|kv m IH]; [done |].
  rewrite fmap_cons. cbn [foldr Group.amount]. by rewrite IH.
Qed.

Lemma bySector_sum (result : list Group.t) :
  sum_entries
    ((λ r, {| Entry.sector := Group._id r; Entry.amount := Group.amount r |})
       <$> result) =
    foldr (λ r a, Group.amount r + a) 0 result.
Proof.
  unfold sum_entries. induction result as [|r l IH]; [done |].
  rewrite fmap_cons. cbn [foldr Entry.amount]. by rewrite IH.
Qed.

(** A row of the group table is the sum over the records of its sector. *)
Lemma group_table_acc_lookup (g : gmap string Z) l k :
  foldl (λ g d, <[Doc.sector d := default 0 (g !! Doc.sector d) + Doc.amount d]> g)
        g l !! k =
    match filter (λ d, Doc.sector d = k) l with
    | [] => g !! k
    | lk => Some (default 0 (g !! k) + sum_amounts lk)
    end.
Proof.
  revert g. induction l as [|d l IH]; intros g; [done |].
  cbn [foldl]. rewrite IH. rewrite filter_cons.
  destruct (decide (Doc.sector d = k)) as [<- | Hne].
  - rewrite lookup_insert_eq. cbn [default].
    destruct (filter _ l) as [|d' lk]; simpl; f_equal; try lia.
  - by rewrite lookup_insert_ne.
Qed.

Lemma group_table_lookup l k :
  group_table l !! k =
    match filter (λ d, Doc.sector d = k) l with
    | [] => None
    | lk => Some (sum_amounts lk)
    end.
Proof.
  unfold group_table. rewrite group_table_acc_lookup, lookup_empty.
  destruct (filter _ l); [done |]. cbn [default]. f_equal.
Qed.

(** *** Sorting by date, most recent first *)

Global Instance date_desc_total : Total date_desc.
Proof. intros a b. unfold date_desc. lia. Qed.

Global Instance date_desc_trans : Transitive date_desc.
Proof. intros a b c. unfold date_desc. lia. Qed.

(** *** Records of a collection *)

Lemma elem_of_records (c : coll) d : d ∈ records c ↔ ∃ i, c !! i = Some d.
Proof.
  unfold records. rewrite list_elem_of_fmap. split.
  - intros ([i d'] & -> & Hin). exists i. by apply elem_of_map_to_list.
  - intros [i Hi]. exists (i, d). split; [done |]. by apply elem_of_map_to_list.
Qed.

Lemma set_spends_id s : set_spends (spends s) s = s.
Proof. by destruct s. Qed.

Lemma set_incomes_id s : set_incomes (incomes s) s = s.
Proof. by destruct s. Qed.

End StoreFacts.

(** * Properties of the specification *)

Import JSDate JS Store App Props.
Import JSDateFacts JSFacts RangeFacts StoreFacts.

(** ** Month ranges *)

(** The range of February 2024 in a UTC zone: 29 days, from
    2024-02-01T00:00 to 2024-03-01T00:00. *)
Example getMonthRange_2024_02 :
  getMonthRange rt0 0 (Some "2024-02") =
    {| start := Some 1706745600000; end_ := Some (1706745600000 + 29 * msPerDay) |}
  ∧ is_month_range rt0 (getMonthRange rt0 0 (Some "2024-02")) 2024 2.
Proof. by vm_compute. Qed.

(** December rolls over into January of the next year. *)
Example getMonthRange_2024_12 :
  local_fields rt0 (start (getMonthRange rt0 0 (Some "2024-12"))) = Some (2024, 12, 1, 0)
  ∧ local_fields rt0 (end_ (getMonthRange rt0 0 (Some "2024-12"))) = Some (2025, 1, 1, 0).
Proof. by vm_compute. Qed.

(** Five and a half hours east of UTC the local month starts that much
    earlier. *)
Example getMonthRange_2024_02_east :
  getMonthRange rt_east 0 (Some "2024-02") =
    {| start := Some (1706745600000 - 19800000);
       end_ := Some (1709251200000 - 19800000) |}
  ∧ is_month_range rt_east (getMonthRange rt_east 0 (Some "2024-02")) 2024 2.
Proof. by vm_compute. Qed.

(** Without an argument the range is the current local month. *)
Example getMonthRange_current :
  is_month_range rt0 (getMonthRange rt0 1700000000000 None) 2023 11.
Proof. by vm_compute. Qed.




(** ["2024-13"] yields the same range as ["2025-01"]. *)
Example getMonthRange_2024_13 :
  getMonthRange rt0 0 (Some "2024-13") = getMonthRange rt0 0 (Some "2025-01").
Proof. reflexivity. Qed.




(** ** Record creation *)

(** C3: a create request in which name, sector or amount is absent is
    answered with status 400 and persists no record: the database is left as
    it was. *)
Theorem post_spends_absent rt now b s :
  Body.name b = None ∨ Body.sector b = None ∨ nullish (Body.amount b) = true →
  post_spends rt now b s = (required_error, s)
  ∧ status (post_spends rt now b s).1 = 400.
Proof.
  intros H. unfold post_spends.
  assert (negb (truthy (Body.name b)) || negb (truthy (Body.sector b))
          || nullish (Body.amount b) = true) as ->; [|done].
  destruct H as [-> | [-> | ->]]; simpl; [done | |];
    rewrite ?orb_true_r; done.
Qed.

Lemma post_spends_absent_witness :
  post_spends rt0 1000
    {| Body.name := Some (JStr "Coffee"); Body.sector := None;
       Body.amount := Some (JNum 5); Body.note := None; Body.date := None |} db0
  = (required_error, db0).
Proof.
  apply (post_spends_absent rt0 1000
    {| Body.name := Some (JStr "Coffee"); Body.sector := None;
       Body.amount := Some (JNum 5); Body.note := None; Body.date := None |} db0).
  right. left. reflexivity.
Defined.

(** C9: a create request in which name or sector is present but falsy (the
    empty string, [0], [false], [null]) is answered with status 400 and
    persists nothing. *)
Theorem post_spends_falsy rt now b s v :
  (Body.name b = Some v ∨ Body.sector b = Some v) → truthy (Some v) = false →
  post_spends rt now b s = (required_error, s)
  ∧ status (post_spends rt now b s).1 = 400.
Proof.
  intros H Hv. unfold post_spends.
  assert (negb (truthy (Body.name b)) || negb (truthy (Body.sector b))
          || nullish (Body.amount b) = true) as ->; [|done].
  destruct H as [-> | ->]; rewrite Hv; simpl; [done |].
  by rewrite orb_true_r.
Qed.

Lemma post_spends_falsy_witness :
  post_spends rt0 1000
    {| Body.name := Some (JStr ""); Body.sector := Some (JStr "Food");
       Body.amount := Some (JNum 5); Body.note := None; Body.date := None |} db0
  = (required_error, db0).
Proof.
  apply (post_spends_falsy rt0 1000
    {| Body.name := Some (JStr ""); Body.sector := Some (JStr "Food");
       Body.amount := Some (JNum 5); Body.note := None; Body.date := None |}
    db0 (JStr "")).
  - left. reflexivity.
  - reflexivity.
Defined.

(** What a successful create stores. *)
Lemma post_spends_created rt now b s d s' :
  post_spends rt now b s = (res_status_json 201 (Record_ d), s') →
  s' = set_spends (<[Doc._id d := d]> (spends s)) s
  ∧ spends s !! Doc._id d = None
  ∧ path_Number_required rt (Body.amount b) = Some (Doc.amount d)
  ∧ (if truthy (Body.date b) then new_Date rt (Body.date b) else Some now)
      = Some (Doc.date d).
Proof.
  unfold post_spends, server_error, res_status_json.
  destruct (_ || _); [intros [=] |].
  unfold create, SpendSchema.
  cbn [NewDoc.name NewDoc.sector NewDoc.amount NewDoc.note NewDoc.date].
  destruct (path_String_required rt (Body.name b)) as [n|];
    cbn [mbind option_bind]; [|intros [=]].
  destruct (path_String_required rt (Body.sector b)) as [sec|];
    cbn [mbind option_bind]; [|intros [=]].
  destruct (path_Number_required rt (Body.amount b)) as [a|];
    cbn [mbind option_bind]; [|intros [=]].
  destruct (path_String rt _) as [nt|]; cbn [mbind option_bind]; [|intros [=]].
  unfold path_Date_default_now, castDate.
  destruct (if truthy (Body.date b) then _ else _) as [t|];
    cbn [mbind option_bind]; [|intros [=]].
  intros [= <- <-]. cbn [Doc._id Doc.amount Doc.date].
  split_and!; [done | apply not_elem_of_dom, is_fresh | done | done].
Qed.

(** C4, as stated, fails on a provided date that is falsy: with [date: 0]
    the record gets the current time, not the instant [0]. *)
Lemma post_spends_date_zero :
  ¬ date_as_stated rt0 1000 (coffee (Some (JNum 5)) (Some (JNum 0))) db0.
Proof.
  intros H.
  assert (∃ d s', post_spends rt0 1000 (coffee (Some (JNum 5)) (Some (JNum 0))) db0
                  = (res_status_json 201 (Record_ d), s') ∧ Doc.date d = 1000)
    as (d & s' & E & Hd).
  { vm_compute. do 2 eexists. split; reflexivity. }
  specialize (H d s' E). unfold coffee in H. cbn [Body.date] in H.
  rewrite Hd in H. vm_compute in H. discriminate H.
Qed.

(** C4 (amended): the persisted record's date is the current timestamp when
    the date value is omitted or falsy ([null], [0], [false], the empty
    string), and otherwise it is the date parsed from the given value. *)
Theorem post_spends_date rt now b s d s' :
  post_spends rt now b s = (res_status_json 201 (Record_ d), s') →
  spends s' !! Doc._id d = Some d
  ∧ (truthy (Body.date b) = false → Doc.date d = now)
  ∧ (truthy (Body.date b) = true → new_Date rt (Body.date b) = Some (Doc.date d)).
Proof.
  intros H. destruct (post_spends_created _ _ _ _ _ _ H) as (-> & _ & _ & Hd).
  split_and!; [apply lookup_insert_eq | |]; intros Ht; rewrite Ht in Hd;
    congruence.
Qed.

Lemma post_spends_date_witness :
  ∃ d s',
    post_spends rt0 1000 (coffee (Some (JNum 5)) (Some (JStr "2024-02-10"))) db0
      = (res_status_json 201 (Record_ d), s')
    ∧ spends s' !! Doc._id d = Some d
    ∧ Doc.date d = 1707523200000.
Proof.
  assert (∃ d s', post_spends rt0 1000 (coffee (Some (JNum 5)) (Some (JStr "2024-02-10"))) db0
                  = (res_status_json 201 (Record_ d), s')) as (d & s' & E).
  { vm_compute. do 2 eexists. reflexivity. }
  exists d, s'.
  destruct (post_spends_date rt0 1000 _ db0 d s' E) as (Hin & _ & Hv).
  split_and!; [done | done |].
  specialize (Hv eq_refl). by injection Hv.
Defined.

(** C5, as stated, fails when a present name is the empty string (the answer
    is 400) and when the given date does not parse (the answer is 500). *)
Lemma post_spends_not_accepted :
  ¬ accepted_as_stated rt0 1000
      {| Body.name := Some (JStr ""); Body.sector := Some (JStr "Food");
         Body.amount := Some (JNum 0); Body.note := None; Body.date := None |} db0
  ∧ ¬ accepted_as_stated rt0 1000 (coffee (Some (JNum 0)) (Some (JStr "soon"))) db0.
Proof.
  split; intros H.
  - destruct (H 0) as (d & s' & E & _); [by eexists | by eexists | done | done |].
    vm_compute in E. discriminate E.
  - destruct (H 0) as (d & s' & E & _); [by eexists | by eexists | done | done |].
    vm_compute in E. discriminate E.
Qed.

(** C5 (amended): for every create request whose name and sector are
    non-empty strings, whose amount is a number, in particular zero or a
    negative number, and whose note and date are absent, falsy, or accepted
    by the schema (a note that casts to a string, a date that parses), the
    amount presence check passes, the record is persisted under a new
    identifier with that amount, and the response status is 201 Created. *)
Theorem post_spends_accepted rt now b s n sec a :
  Body.name b = Some (JStr n) → n ≠ "" →
  Body.sector b = Some (JStr sec) → sec ≠ "" →
  Body.amount b = Some (JNum a) → a <= 0 →
  (∀ v, Body.note b = Some v → truthy (Some v) = true → is_Some (castString rt v)) →
  (truthy (Body.date b) = true → is_Some (new_Date rt (Body.date b))) →
  ∃ d, post_spends rt now b s =
         (res_status_json 201 (Record_ d), set_spends (<[Doc._id d := d]> (spends s)) s)
       ∧ status (post_spends rt now b s).1 = 201
       ∧ spends s !! Doc._id d = None
       ∧ Doc.name d = n ∧ Doc.sector d = sec ∧ Doc.amount d = a.
Proof.
  intros Hn Hn' Hs Hs' Ha _ Hnote Hdate.
  assert (Hne : ∀ x : string, x ≠ "" → String.eqb x "" = false).
  { intros x Hx. by apply String.eqb_neq. }
  unfold post_spends, create, SpendSchema.
  cbn [NewDoc.name NewDoc.sector NewDoc.amount NewDoc.note NewDoc.date].
  rewrite Hn, Hs, Ha.
  replace (truthy (Some (JStr n))) with true by (simpl; by rewrite Hne).
  replace (truthy (Some (JStr sec))) with true by (simpl; by rewrite Hne).
  replace (nullish (Some (JNum a))) with false by done.
  cbn [negb orb].
  unfold path_String_required, path_Number_required.
  cbn [mbind option_bind castString castNumber].
  rewrite (Hne n Hn'), (Hne sec Hs'). cbn [mbind option_bind].
  assert (∃ nt, path_String rt (if truthy (Body.note b) then Body.note b
                                else Some (JStr "")) = Some nt) as [nt ->].
  { destruct (truthy (Body.note b)) eqn:Hnt; [|by eexists].
    destruct (Body.note b) as [v|]; [|done].
    destruct (Hnote v eq_refl Hnt) as [str Hstr].
    unfold path_String. destruct v; try (rewrite Hstr; by eexists). done. }
  assert (∃ t, path_Date_default_now now
                 (Some (if truthy (Body.date b) then new_Date rt (Body.date b)
                        else Some now)) = Some t) as [t ->].
  { unfold path_Date_default_now, castDate.
    destruct (truthy (Body.date b)); [|by eexists].
    destruct (Hdate eq_refl) as [t Ht]. by exists t. }
  cbn [mbind option_bind]. eexists. split_and!; try reflexivity.
  cbn [Doc._id]. apply not_elem_of_dom, is_fresh.
Qed.

Lemma post_spends_accepted_witness :
  ∃ d, post_spends rt0 1000 (coffee (Some (JNum (-5))) None) db0 =
         (res_status_json 201 (Record_ d), set_spends (<[Doc._id d := d]> (spends db0)) db0)
       ∧ Doc.amount d = -5.
Proof.
  destruct (post_spends_accepted rt0 1000 (coffee (Some (JNum (-5))) None) db0
              "Coffee" "Food" (-5)) as (d & E & _ & _ & _ & _ & Ha);
    [reflexivity | discriminate | reflexivity | discriminate | reflexivity | lia
    | intros v [=] | intros [=] |].
  exists d. split; [exact E | exact Ha].
Defined.

(** ** Monthly summary *)



(** In [db1] the summary of February 2024 counts three records in two
    sectors; the record dated 2024-03-01T00:00 is outside the half-open
    range. *)
Example get_spends_summary_db1 :
  ∃ bySector,
    get_spends_summary rt0 0 (Some "2024-02") db1 = res_json (Summary 112 bySector)
    ∧ bySector ≡ₚ [ {| Entry.sector := "Food"; Entry.amount := 12 |};
                    {| Entry.sector := "Rent"; Entry.amount := 100 |} ].
Proof.
  vm_compute. eexists. split; [reflexivity |].
  first [reflexivity | apply Permutation_swap].
Qed.

(** ** Sector-month listing *)

(** C6: for every sector string and month (with a valid range [start, end))
    the listing is answered with status 200 and exactly the records whose
    sector equals the given string and whose date lies in [start, end),
    sorted by date in descending order; it is the empty sequence when no
    record matches. *)
Theorem get_sector_spends_listing rt now sector month s st e :
  getMonthRange rt now month = {| start := Some st; end_ := Some e |} →
  let wanted d := Doc.sector d = sector ∧ st <= Doc.date d < e in
  ∃ l, get_sector_spends rt now sector month s = res_status_json 200 (Records l)
    ∧ l ≡ₚ filter wanted (records (spends s))
    ∧ (∀ d, d ∈ l ↔ (∃ i, spends s !! i = Some d) ∧ wanted d)
    ∧ StronglySorted (λ a b, Doc.date b <= Doc.date a) l
    ∧ ((∀ i d, spends s !! i = Some d → ¬ wanted d) → l = []).
Proof.
  intros Hr wanted. unfold get_sector_spends, find_sorted. rewrite Hr.
  cbn [start end_ castDate mbind option_bind].
  eexists. split; [reflexivity |].
  set (l0 := filter _ (records (spends s))).
  assert (Hperm : merge_sort date_desc l0 ≡ₚ l0) by apply merge_sort_Permutation.
  assert (Hmem : ∀ d, d ∈ l0 ↔ (∃ i, spends s !! i = Some d) ∧ wanted d).
  { intros d. unfold l0. rewrite list_elem_of_filter, elem_of_records.
    unfold wanted, in_range. tauto. }
  split_and!.
  - exact Hperm.
  - intros d. rewrite Hperm. apply Hmem.
  - apply (StronglySorted_merge_sort date_desc).
  - intros Hnone. assert (l0 = []) as ->; [|done].
    apply elem_of_nil_inv. intros d Hd. apply Hmem in Hd as [[i Hi] Hw].
    by apply (Hnone i d).
Qed.

Lemma get_sector_spends_listing_witness :
  ∃ l, get_sector_spends rt0 0 "Food" (Some "2024-02") db1 =
         res_status_json 200 (Records l)
    ∧ StronglySorted (λ a b, Doc.date b <= Doc.date a) l
    ∧ (∀ d, d ∈ l ↔ (∃ i, spends db1 !! i = Some d)
                     ∧ Doc.sector d = "Food"
                     ∧ 1706745600000 <= Doc.date d < 1709251200000).
Proof.
  destruct (get_sector_spends_listing rt0 0 "Food" (Some "2024-02") db1
              1706745600000 1709251200000 eq_refl) as (l & E & _ & Hmem & Hsorted & _).
  exists l. split_and!; [exact E | exact Hsorted | exact Hmem].
Defined.

(** In [db1] the February 2024 listing of sector ["Food"] has the two
    February records, the more recent one first; the sector name is matched
    exactly, so ["food"] lists nothing. *)
Example get_sector_spends_db1 :
  get_sector_spends rt0 0 "Food" (Some "2024-02") db1 =
    res_status_json 200
      (Records [spend 3 "Food" 7 1708000000000; spend 1 "Food" 5 1707000000000])
  ∧ get_sector_spends rt0 0 "food" (Some "2024-02") db1 =
      res_status_json 200 (Records []).
Proof. split; reflexivity. Qed.

(** ** Retrieval and deletion *)

(** C7: for every identifier, deleting when no record has that identifier is
    answered with 404 and leaves the database unchanged; deleting when such a
    record exists removes that record and no other, is answered with the
    acknowledgement [{ ok: true }], and a subsequent retrieval of the same
    identifier is answered with 404. *)
Theorem delete_spend_by_id rt id i s :
  castObjectId rt id = Some i →
  (spends s !! i = None →
     delete_spend rt id s = (res_status_json 404 (Error "Not found"), s))
  ∧ (∀ d, spends s !! i = Some d →
       get_spend rt id s = res_status_json 200 (Record_ d)
       ∧ ∃ s', delete_spend rt id s = (res_status_json 200 (Ok true), s')
            ∧ spends s' = delete i (spends s)
            ∧ incomes s' = incomes s
            ∧ spends s' !! i = None
            ∧ (∀ j, j ≠ i → spends s' !! j = spends s !! j)
            ∧ get_spend rt id s' = res_status_json 404 (Error "Not found")).
Proof.
  intros Hid. unfold delete_spend, get_spend, findByIdAndDelete, findById.
  rewrite Hid. cbn [mbind option_bind]. split.
  - intros Hnone. rewrite Hnone, delete_id by done. by rewrite set_spends_id.
  - intros d Hd. rewrite Hd. split; [done |].
    eexists. split; [reflexivity |].
    cbn [spends incomes set_spends].
    rewrite lookup_delete_eq. split_and!; try done.
    intros j Hj. by rewrite lookup_delete_ne.
Qed.

Lemma delete_spend_by_id_witness :
  delete_spend rt0 "000000000000000000000007" db1 =
    (res_status_json 404 (Error "Not found"), db1)
  ∧ ∃ s', delete_spend rt0 "000000000000000000000002" db1 =
            (res_status_json 200 (Ok true), s')
          ∧ get_spend rt0 "000000000000000000000002" s' =
              res_status_json 404 (Error "Not found").
Proof.
  split.
  - apply (delete_spend_by_id rt0 "000000000000000000000007" 7%N db1 eq_refl).
    reflexivity.
  - destruct (delete_spend_by_id rt0 "000000000000000000000002" 2%N db1 eq_refl)
      as [_ H].
    destruct (H (spend 2 "Rent" 100 1706745600000) eq_refl)
      as (_ & s' & E & _ & _ & _ & _ & G).
    exists s'. split; [exact E | exact G].
Defined.

(** ** Incomes *)

(** C8: each Income operation (create, summary, sector listing, get by id,
    delete by id) computes what the corresponding Spend operation computes
    on the database with the two collections exchanged: the two families
    differ only in the collection they read and write. *)
Theorem incomes_as_spends rt now s :
  (∀ b, post_incomes rt now b s =
          ((post_spends rt now b (swap s)).1, swap (post_spends rt now b (swap s)).2))
  ∧ (∀ month, get_incomes_summary rt now month s =
                get_spends_summary rt now month (swap s))
  ∧ (∀ sector month, get_sector_incomes rt now sector month s =
                       get_sector_spends rt now sector month (swap s))
  ∧ (∀ id, get_income rt id s = get_spend rt id (swap s))
  ∧ (∀ id, delete_income rt id s =
             ((delete_spend rt id (swap s)).1, swap (delete_spend rt id (swap s)).2)).
Proof.
  destruct s as [sp inc]. split_and!.
  - intros b. unfold post_incomes, post_spends, swap. cbn [spends incomes].
    destruct (_ || _); [done |].
    change IncomeSchema with SpendSchema.
    by destruct (create SpendSchema rt now inc _) as [[d c]|].
  - done.
  - done.
  - done.
  - intros id. unfold delete_income, delete_spend, swap. cbn [spends incomes].
    by destruct (findByIdAndDelete rt inc id) as [[[d|] c]|].
Qed.

(** * Further properties *)

Module MonthFacts.
Import JSDate JS Store App Props JSDateFacts JSFacts RangeFacts.

Local Ltac month_cases mn :=
  assert (mn = 0 ∨ mn = 1 ∨ mn = 2 ∨ mn = 3 ∨ mn = 4 ∨ mn = 5 ∨ mn = 6
          ∨ mn = 7 ∨ mn = 8 ∨ mn = 9 ∨ mn = 10 ∨ mn = 11) as Hcases by lia;
  destruct_or!; subst mn.

Lemma Day_bounds t : msPerDay * Day t <= t < msPerDay * Day t + msPerDay.
Proof.
  unfold Day. pose proof msPerDay_pos.
  pose proof (Z.mul_div_le t msPerDay). pose proof (Z.mul_succ_div_gt t msPerDay).
  lia.
Qed.

Lemma MonthFromTime_range t : 0 <= MonthFromTime t < 12.
Proof.
  unfold MonthFromTime. cbv zeta.
  repeat match goal with
         | |- context [?a <? ?b] => destruct (Z.ltb_spec a b)
         end; lia.
Qed.

(** Every instant lies in the month its local fields name. *)
Lemma month_of_time t :
  let ym := YearFromTime t in
  let mn := MonthFromTime t in
  monthStart ym mn <= t < monthStart (ym + (mn + 1) / 12) ((mn + 1) mod 12).
Proof.
  cbv zeta.
  pose proof (YearFromTime_days t) as [Hl Hu].
  rewrite DayFromYear_succ in Hu.
  pose proof (Day_bounds t) as [Hd1 Hd2].
  pose proof (DayFromYear_succ (YearFromTime t)) as Hsucc.
  unfold MonthFromTime, DayWithinYear, InLeapYear. cbv zeta.
  set (ym := YearFromTime t) in *.
  set (leap := if DaysInYear ym =? 366 then 1 else 0).
  assert (Hleap : 0 <= leap <= 1 ∧ DaysInYear ym = 365 + leap).
  { unfold leap. destruct (DaysInYear_cases ym) as [-> | ->]; simpl; lia. }
  repeat match goal with
         | |- context [?a <? ?b] => destruct (Z.ltb_spec a b)
         end;
    match goal with
    | |- context [monthStart (ym + (?k + 1) / 12) ((?k + 1) mod 12)] =>
        let q := eval cbv in ((k + 1) / 12) in
        let r := eval cbv in ((k + 1) mod 12) in
        change ((k + 1) / 12) with q; change ((k + 1) mod 12) with r
    end;
    unfold monthStart; cbv zeta; fold leap;
    rewrite ?Z.add_0_r; try rewrite Hsucc;
    destruct (DaysInYear (ym + 1) =? 366);
    unfold msPerDay in *; lia.
Qed.

(** ... and in no other month. *)
Lemma time_in_month ym mn t :
  0 <= mn < 12 →
  monthStart ym mn <= t < monthStart (ym + (mn + 1) / 12) ((mn + 1) mod 12) →
  YearFromTime t = ym ∧ MonthFromTime t = mn.
Proof.
  intros Hmn Ht.
  pose proof (Day_bounds t) as [Hd1 Hd2].
  pose proof (DayFromYear_succ ym) as Hsucc.
  set (leap := if DaysInYear ym =? 366 then 1 else 0).
  assert (Hleap : 0 <= leap <= 1 ∧ DaysInYear ym = 365 + leap).
  { unfold leap. destruct (DaysInYear_cases ym) as [-> | ->]; simpl; lia. }
  assert (HY : YearFromTime t = ym).
  { apply YearFromTime_unique_days. rewrite Hsucc.
    revert Ht. month_cases mn;
      match goal with
      | |- context [monthStart (ym + (?k + 1) / 12) ((?k + 1) mod 12)] =>
          let q := eval cbv in ((k + 1) / 12) in
          let r := eval cbv in ((k + 1) mod 12) in
          change ((k + 1) / 12) with q; change ((k + 1) mod 12) with r
      end;
      unfold monthStart; cbv zeta; fold leap;
      rewrite ?Z.add_0_r; try rewrite Hsucc;
      destruct (DaysInYear (ym + 1) =? 366);
      unfold msPerDay in *; lia. }
  split; [done |].
  unfold MonthFromTime, DayWithinYear, InLeapYear. rewrite HY. cbv zeta. fold leap.
  revert Ht. month_cases mn;
    match goal with
    | |- context [monthStart (ym + (?k + 1) / 12) ((?k + 1) mod 12)] =>
        let q := eval cbv in ((k + 1) / 12) in
        let r := eval cbv in ((k + 1) mod 12) in
        change ((k + 1) / 12) with q; change ((k + 1) mod 12) with r
    end;
    unfold monthStart; cbv zeta; fold leap;
    rewrite ?Z.add_0_r; try rewrite Hsucc;
    destruct (DaysInYear (ym + 1) =? 366);
    intros Ht;
    repeat match goal with
           | |- context [?a <? ?b] => destruct (Z.ltb_spec a b)
           end;
    unfold msPerDay in *; lia.
Qed.

End MonthFacts.

Module RangeMore.
Import JSDate JS Store App Props JSDateFacts JSFacts RangeFacts MonthFacts.

(** The two dates of the range of ["<y>-<m>"]. *)
Lemma getMonthRange_explicit rt now ys ms y m :
  Number ys = Some y → Number ms = Some m →
  - msPerDay <= tza rt <= msPerDay →
  let Y := MakeFullYear y + (m - 1) / 12 in
  let mn := (m - 1) mod 12 in
  yearInRange Y → yearInRange (Y + 1) →
  getMonthRange rt now (Some (ys +:+ "-" +:+ ms)) =
    {| start := Some (monthStart Y mn - tza rt);
       end_ := Some (monthStart (Y + (mn + 1) / 12) ((mn + 1) mod 12) - tza rt) |}.
Proof.
  intros Hy Hm Htz Y mn HY HY'.
  rewrite (getMonthRange_digits rt now ys ms y m Hy Hm). cbv zeta.
  rewrite Date_ymd_first by done. fold Y mn.
  assert (Hmn : 0 <= mn < 12) by (apply Z.mod_pos_bound; lia).
  by rewrite setMonth_next.
Qed.

Lemma getMonthRange_month_explicit rt now y m :
  - msPerDay <= tza rt <= msPerDay →
  100 <= y <= 9999 → 1 <= m <= 12 →
  getMonthRange rt now (Some (month_string y m)) =
    {| start := Some (monthStart y (m - 1) - tza rt);
       end_ := Some (monthStart (y + m / 12) (m mod 12) - tza rt) |}.
Proof.
  intros Htz Hy Hm. unfold month_string.
  pose proof (getMonthRange_explicit rt now (pad 4 y) (pad 2 m) y m) as H.
  cbv zeta in H.
  assert (MakeFullYear y = y) as HF.
  { unfold MakeFullYear. destruct (Z.leb_spec 0 y), (Z.leb_spec y 99); simpl; lia. }
  rewrite HF, (Z.div_small (m - 1) 12), (Z.mod_small (m - 1) 12), Z.add_0_r in H by lia.
  replace (m - 1 + 1) with m in H by lia.
  apply H; [apply Number_pad4; lia | apply Number_pad2; lia | done | |];
    unfold yearInRange; lia.
Qed.

Lemma split_no_dash s : contains "-" s = false → split "-" s = [s].
Proof.
  induction s as [|c s IH]; simpl; [done |].
  intros H. apply orb_false_iff in H as [Hc Hs].
  by rewrite Hc, (IH Hs).
Qed.

(** The current local month, as the Date constructor is given it. *)
Lemma current_month_explicit tza now :
  - msPerDay <= tza <= msPerDay → 0 <= now <= 8000000000000000 →
  let t := LocalTime tza now in
  100 <= YearFromTime t ∧ yearInRange (YearFromTime t)
  ∧ yearInRange (YearFromTime t + 1)
  ∧ Date_ymd tza (getFullYear tza (Some now)) (getMonth tza (Some now)) 1 =
      Some (monthStart (YearFromTime t) (MonthFromTime t) - tza).
Proof.
  intros Htz Hnow t.
  pose proof (YearFromTime_days t) as [Hl Hu].
  pose proof (Day_bounds t) as [Hd1 Hd2].
  assert (Hy : 1969 <= YearFromTime t <= 260000).
  { revert Hl Hu. unfold DayFromYear, t, LocalTime, msPerDay in *.
    generalize (YearFromTime (now + tza)). intros Y Hl Hu.
    Z.to_euclidean_division_equations. lia. }
  assert (HR : yearInRange (YearFromTime t) ∧ yearInRange (YearFromTime t + 1))
    by (unfold yearInRange; lia).
  split_and!; [lia | apply HR | apply HR |].
  unfold getFullYear, getMonth. cbn [mbind option_bind]. fold t.
  pose proof (MonthFromTime_range t) as Hmn.
  pose proof (Date_ymd_first tza (YearFromTime t) (MonthFromTime t)) as H.
  cbv zeta in H.
  assert (MakeFullYear (YearFromTime t) = YearFromTime t) as HF.
  { unfold MakeFullYear.
    destruct (Z.leb_spec 0 (YearFromTime t)), (Z.leb_spec (YearFromTime t) 99);
      simpl; lia. }
  rewrite HF, Z.div_small, Z.mod_small, Z.add_0_r in H by lia.
  apply H; [apply HR | done].
Qed.

End RangeMore.

Import MonthFacts RangeMore.

(** ** More on month ranges *)









(** X5: a month argument that holds no ["-"] has no month number: both dates
    of the range are invalid. *)
Theorem getMonthRange_no_dash rt now s :
  s ≠ "" → contains "-" s = false →
  getMonthRange rt now (Some s) = {| start := None; end_ := None |}.
Proof.
  intros Hs Hd. unfold getMonthRange. cbv zeta.
  replace (String.eqb s "") with false by (symmetry; by apply String.eqb_neq).
  rewrite (split_no_dash s Hd). cbn.
  unfold Date_ymd. by destruct (Number s).
Qed.

Lemma getMonthRange_no_dash_witness :
  getMonthRange rt0 0 (Some "202402") = {| start := None; end_ := None |}.
Proof. apply (getMonthRange_no_dash rt0 0 "202402"); [discriminate | reflexivity]. Defined.

(** X6: only the first two segments of the argument are read: a full date
    ["YYYY-MM-DD"], or any other text after a second ["-"], gives the range
    of ["YYYY-MM"]. *)
Theorem getMonthRange_extra_segments rt now ys ms rest y m :
  Number ys = Some y → Number ms = Some m →
  getMonthRange rt now (Some (ys +:+ "-" +:+ ms +:+ "-" +:+ rest)) =
    getMonthRange rt now (Some (ys +:+ "-" +:+ ms)).
Proof.
  intros Hy Hm.
  rewrite (getMonthRange_digits rt now ys ms y m Hy Hm). cbv zeta.
  unfold getMonthRange. cbv zeta.
  rewrite app_dash_nonempty.
  rewrite (split_digits_dash 0 ys (ms +:+ "-" +:+ rest) y Hy).
  rewrite (split_digits_dash 0 ms rest m Hm).
  cbn. by rewrite Hy, Hm.
Qed.

Lemma getMonthRange_extra_segments_witness :
  getMonthRange rt0 0 (Some "2024-02-15") = getMonthRange rt0 0 (Some "2024-02").
Proof.
  apply (getMonthRange_extra_segments rt0 0 "2024" "02" "15" 2024 2); reflexivity.
Defined.

Module StoreMore.
Import JSDate JS Store App Props StoreFacts.

Lemma sum_amounts_perm l1 l2 : l1 ≡ₚ l2 → sum_amounts l1 = sum_amounts l2.
Proof. induction 1; simpl in *; lia. Qed.

Lemma records_insert (c : coll) i d :
  c !! i = None → records (<[i := d]> c) ≡ₚ d :: records c.
Proof.
  intros Hi. unfold records. by rewrite (map_to_list_insert c i d Hi).
Qed.

Lemma records_delete (c : coll) i d :
  c !! i = Some d → records c ≡ₚ d :: records (delete i c).
Proof.
  intros Hi. unfold records. by rewrite <- (map_to_list_delete c i d Hi).
Qed.

(** The answer of the summary, in terms of the matching records. *)
Lemma get_spends_summary_shape rt now month s :
  let r := getMonthRange rt now month in
  let matched := stage_match (start r) (end_ r) (records (spends s)) in
  get_spends_summary rt now month s =
    res_json (Summary (sum_amounts matched)
                ((λ r, {| Entry.sector := Group._id r; Entry.amount := Group.amount r |})
                   <$> stage_group matched)).
Proof.
  intros r matched. unfold get_spends_summary, aggregate. fold r. fold matched.
  cbv zeta. by rewrite reduce_sum, stage_group_sum.
Qed.

Lemma sum_matched_cons start end_ d l :
  sum_amounts (stage_match start end_ (d :: l)) =
    (if decide (in_range start end_ (Doc.date d)) then Doc.amount d else 0)
    + sum_amounts (stage_match start end_ l).
Proof.
  unfold stage_match. rewrite filter_cons. by destruct (decide _).
Qed.

Lemma bySector_entry l sec a :
  {| Entry.sector := sec; Entry.amount := a |} ∈
    ((λ r, {| Entry.sector := Group._id r; Entry.amount := Group.amount r |})
       <$> stage_group l)
  ↔ filter (λ d, Doc.sector d = sec) l ≠ []
    ∧ a = sum_amounts (filter (λ d, Doc.sector d = sec) l).
Proof.
  unfold stage_group. rewrite <- list_fmap_compose, list_elem_of_fmap. split.
  - intros ([k v] & [= -> ->] & Hin). cbn [fst snd] in *.
    apply elem_of_map_to_list in Hin. rewrite group_table_lookup in Hin.
    destruct (filter (λ d, Doc.sector d = k) l) as [|d lk]; [done |].
    by injection Hin as <-.
  - intros [Hne ->].
    exists (sec, sum_amounts (filter (λ d, Doc.sector d = sec) l)).
    split; [done |]. apply elem_of_map_to_list. rewrite group_table_lookup.
    by destruct (filter (λ d, Doc.sector d = sec) l).
Qed.

(** The answer of the listing, for a range of valid dates. *)
Lemma get_sector_spends_shape rt now sector month s st e :
  getMonthRange rt now month = {| start := Some st; end_ := Some e |} →
  ∃ l, get_sector_spends rt now sector month s = res_status_json 200 (Records l)
    ∧ l ≡ₚ filter (λ d, Doc.sector d = sector)
             (stage_match (Some st) (Some e) (records (spends s))).
Proof.
  intros Hr. unfold get_sector_spends, find_sorted. rewrite Hr.
  cbn [start end_ castDate mbind option_bind].
  eexists. split; [reflexivity |].
  rewrite merge_sort_Permutation. unfold stage_match.
  by rewrite list_filter_filter.
Qed.

(** What a successful create stores, field by field. *)
Lemma create_SpendSchema_fields rt now c o d c' :
  create SpendSchema rt now c o = Some (d, c') →
  c' = <[Doc._id d := d]> c
  ∧ c !! Doc._id d = None
  ∧ path_String_required rt (NewDoc.name o) = Some (Doc.name d)
  ∧ path_String_required rt (NewDoc.sector o) = Some (Doc.sector d)
  ∧ path_Number_required rt (NewDoc.amount o) = Some (Doc.amount d)
  ∧ path_String rt (NewDoc.note o) = Some (Doc.note d)
  ∧ path_Date_default_now now (NewDoc.date o) = Some (Doc.date d)
  ∧ Doc.createdAt d = now ∧ Doc.updatedAt d = now.
Proof.
  unfold create, SpendSchema.
  destruct (path_String_required rt (NewDoc.name o)) as [n|];
    cbn [mbind option_bind]; [|intros [=]].
  destruct (path_String_required rt (NewDoc.sector o)) as [sec|];
    cbn [mbind option_bind]; [|intros [=]].
  destruct (path_Number_required rt (NewDoc.amount o)) as [a|];
    cbn [mbind option_bind]; [|intros [=]].
  destruct (path_String rt (NewDoc.note o)) as [nt|];
    cbn [mbind option_bind]; [|intros [=]].
  destruct (path_Date_default_now now (NewDoc.date o)) as [t|];
    cbn [mbind option_bind]; [|intros [=]].
  intros [= <- <-]. cbn.
  split_and!; try done. apply not_elem_of_dom, is_fresh.
Qed.

Lemma path_String_required_nonempty rt v str :
  path_String_required rt v = Some str → str ≠ "".
Proof.
  unfold path_String_required. destruct v as [j|]; cbn [mbind option_bind]; [|done].
  assert (∀ o : option string,
            (s ← o; if String.eqb s "" then None else Some s) = Some str → str ≠ "")
    as Haux.
  { intros [s0|]; cbn [mbind option_bind]; [|done].
    destruct (String.eqb_spec s0 ""); [done |]. by intros [= <-]. }
  destruct j; try done; apply Haux.
Qed.

(** The three outcomes of [POST /api/spends]. *)
Lemma post_spends_cases rt now b s :
  post_spends rt now b s = (required_error, s)
  ∨ post_spends rt now b s = (server_error, s)
  ∨ ∃ d c', create SpendSchema rt now (spends s)
              {| NewDoc.name := Body.name b;
                 NewDoc.sector := Body.sector b;
                 NewDoc.amount := Body.amount b;
                 NewDoc.note :=
                   if truthy (Body.note b) then Body.note b else Some (JStr "");
                 NewDoc.date :=
                   Some (if truthy (Body.date b) then new_Date rt (Body.date b)
                         else Some now) |} = Some (d, c')
            ∧ post_spends rt now b s =
                (res_status_json 201 (Record_ d), set_spends c' s).
Proof.
  unfold post_spends. destruct (_ || _); [by left |].
  destruct (create SpendSchema rt now (spends s) _) as [[d c']|] eqn:E.
  - right. right. by exists d, c'.
  - right. by left.
Qed.

Lemma sum_matched_insert start end_ (c : coll) i d :
  c !! i = None →
  sum_amounts (stage_match start end_ (records (<[i := d]> c))) =
    (if decide (in_range start end_ (Doc.date d)) then Doc.amount d else 0)
    + sum_amounts (stage_match start end_ (records c)).
Proof.
  intros Hi. rewrite <- sum_matched_cons. apply sum_amounts_perm.
  unfold stage_match. apply filter_Permutation. by apply records_insert.
Qed.

Lemma sum_matched_delete start end_ (c : coll) i d :
  c !! i = Some d →
  sum_amounts (stage_match start end_ (records c)) =
    (if decide (in_range start end_ (Doc.date d)) then Doc.amount d else 0)
    + sum_amounts (stage_match start end_ (records (delete i c))).
Proof.
  intros Hi. rewrite <- sum_matched_cons. apply sum_amounts_perm.
  unfold stage_match. apply filter_Permutation. by apply records_delete.
Qed.

Lemma post_incomes_cases rt now b s :
  post_incomes rt now b s = (required_error, s)
  ∨ post_incomes rt now b s = (server_error, s)
  ∨ ∃ d c', create SpendSchema rt now (incomes s)
              {| NewDoc.name := Body.name b;
                 NewDoc.sector := Body.sector b;
                 NewDoc.amount := Body.amount b;
                 NewDoc.note :=
                   if truthy (Body.note b) then Body.note b else Some (JStr "");
                 NewDoc.date :=
                   Some (if truthy (Body.date b) then new_Date rt (Body.date b)
                         else Some now) |} = Some (d, c')
            ∧ post_incomes rt now b s =
                (res_status_json 201 (Record_ d), set_incomes c' s).
Proof.
  unfold post_incomes. destruct (_ || _); [by left |].
  change IncomeSchema with SpendSchema.
  destruct (create SpendSchema rt now (incomes s) _) as [[d c']|] eqn:E.
  - right. right. by exists d, c'.
  - right. by left.
Qed.

Lemma wf_coll_create rt now c o d c' :
  wf_coll c → create SpendSchema rt now c o = Some (d, c') → wf_coll c'.
Proof.
  intros Hwf Hc.
  destruct (create_SpendSchema_fields _ _ _ _ _ _ Hc) as (-> & _ & Hn & Hs & _).
  apply map_Forall_insert_2; [|done].
  split_and!; [done | |]; by eapply path_String_required_nonempty.
Qed.

Lemma delete_spend_state rt id s :
  (delete_spend rt id s).2 =
    match castObjectId rt id with
    | Some i => set_spends (delete i (spends s)) s
    | None => s
    end.
Proof.
  unfold delete_spend, findByIdAndDelete.
  destruct (castObjectId rt id) as [i|]; cbn [mbind option_bind]; [|done].
  by destruct (spends s !! i).
Qed.

Lemma delete_income_state rt id s :
  (delete_income rt id s).2 =
    match castObjectId rt id with
    | Some i => set_incomes (delete i (incomes s)) s
    | None => s
    end.
Proof.
  unfold delete_income, findByIdAndDelete.
  destruct (castObjectId rt id) as [i|]; cbn [mbind option_bind]; [|done].
  by destruct (incomes s !! i).
Qed.

Lemma summary_total_shape rt now month s :
  summary_total (get_spends_summary rt now month s) =
    Some (sum_amounts (stage_match (start (getMonthRange rt now month))
                         (end_ (getMonthRange rt now month)) (records (spends s)))).
Proof. by rewrite get_spends_summary_shape. Qed.

End StoreMore.

Import StoreMore.

(** ** More on record creation *)

(** X7: a create request answers 201, 400 or 500.  It never touches the
    incomes and never changes or removes a stored spend; it adds exactly one
    record when it answers 201 and leaves the database as it was
    otherwise. *)
Theorem post_spends_frame rt now b s :
  let out := post_spends rt now b s in
  incomes out.2 = incomes s
  ∧ spends s ⊆ spends out.2
  ∧ (status out.1 = 201 ∧ size (spends out.2) = S (size (spends s))
     ∨ (status out.1 = 400 ∨ status out.1 = 500) ∧ out.2 = s).
Proof.
  cbv zeta.
  destruct (post_spends_cases rt now b s) as [-> | [-> | (d & c' & Hc & ->)]].
  - split_and!; [done | done | right; split; [by left | done]].
  - split_and!; [done | done | right; split; [by right | done]].
  - destruct (create_SpendSchema_fields _ _ _ _ _ _ Hc) as (-> & Hfresh & _).
    cbn [fst snd spends incomes set_spends status res_status_json].
    split_and!; [done | by apply insert_subseteq |].
    left. split; [done |]. by apply map_size_insert_None.
Qed.

(** X8: the record a create request stores has a non-empty name and sector,
    the creation time in both timestamps, the given note when it is a
    non-empty string, and the empty note when the note is omitted or
    falsy. *)
Theorem post_spends_record rt now b s d s' :
  post_spends rt now b s = (res_status_json 201 (Record_ d), s') →
  Doc.name d ≠ "" ∧ Doc.sector d ≠ ""
  ∧ Doc.createdAt d = now ∧ Doc.updatedAt d = now
  ∧ (truthy (Body.note b) = false → Doc.note d = Some "")
  ∧ (∀ str, Body.note b = Some (JStr str) → str ≠ "" → Doc.note d = Some str)
  ∧ (∀ str, Body.name b = Some (JStr str) → Doc.name d = str)
  ∧ (∀ str, Body.sector b = Some (JStr str) → Doc.sector d = str).
Proof.
  intros H.
  destruct (post_spends_cases rt now b s) as [E | [E | (d' & c' & Hc & E)]];
    rewrite E in H; try discriminate H.
  injection H as <- <-.
  destruct (create_SpendSchema_fields _ _ _ _ _ _ Hc)
    as (_ & _ & Hn & Hs & _ & Hnote & _ & Hc1 & Hc2).
  cbn [NewDoc.name NewDoc.sector NewDoc.note] in *.
  split_and!; try done.
  - by apply (path_String_required_nonempty rt (Body.name b)).
  - by apply (path_String_required_nonempty rt (Body.sector b)).
  - intros Hf. rewrite Hf in Hnote. cbn in Hnote. by injection Hnote as <-.
  - intros str Hb Hne. rewrite Hb in Hnote.
    replace (truthy (Some (JStr str))) with true in Hnote
      by (cbn; symmetry; apply negb_true_iff; by apply String.eqb_neq).
    cbn in Hnote. by injection Hnote as <-.
  - intros str Hb. rewrite Hb in Hn. unfold path_String_required in Hn.
    cbn in Hn. destruct (String.eqb str ""); [done |]. by injection Hn.
  - intros str Hb. rewrite Hb in Hs. unfold path_String_required in Hs.
    cbn in Hs. destruct (String.eqb str ""); [done |]. by injection Hs.
Qed.

Lemma post_spends_record_witness :
  ∃ d s', post_spends rt0 1000 (coffee (Some (JNum 5)) None) db0
            = (res_status_json 201 (Record_ d), s')
          ∧ Doc.note d = Some "" ∧ Doc.name d = "Coffee" ∧ Doc.createdAt d = 1000.
Proof.
  assert (∃ d s', post_spends rt0 1000 (coffee (Some (JNum 5)) None) db0
                  = (res_status_json 201 (Record_ d), s')) as (d & s' & E).
  { vm_compute. do 2 eexists. reflexivity. }
  exists d, s'.
  destruct (post_spends_record rt0 1000 _ db0 d s' E)
    as (_ & _ & Hc & _ & Hnote & _ & Hname & _).
  split_and!; [exact E | by apply Hnote | by apply Hname | exact Hc].
Defined.

(** X9: a record that was created is retrieved by its identifier, and the
    retrieval of every other identifier answers as before the creation. *)
Theorem post_then_get rt now b s d s' id i :
  post_spends rt now b s = (res_status_json 201 (Record_ d), s') →
  castObjectId rt id = Some i →
  get_spend rt id s' =
    if decide (i = Doc._id d) then res_status_json 200 (Record_ d)
    else get_spend rt id s.
Proof.
  intros H Hid.
  destruct (post_spends_created _ _ _ _ _ _ H) as (-> & _).
  unfold get_spend, findById. rewrite Hid. cbn [mbind option_bind spends set_spends].
  destruct (decide (i = Doc._id d)) as [-> | Hne].
  - by rewrite lookup_insert_eq.
  - by rewrite lookup_insert_ne.
Qed.

Lemma post_then_get_witness :
  ∃ d s', post_spends rt0 1000 (coffee (Some (JNum 5)) None) db1
            = (res_status_json 201 (Record_ d), s')
          ∧ get_spend rt0 "000000000000000000000002" s'
            = get_spend rt0 "000000000000000000000002" db1.
Proof.
  assert (∃ d s', post_spends rt0 1000 (coffee (Some (JNum 5)) None) db1
                  = (res_status_json 201 (Record_ d), s')
                  ∧ Doc._id d ≠ 2%N) as (d & s' & E & Hne).
  { vm_compute. do 2 eexists. split; [reflexivity | discriminate]. }
  exists d, s'. split; [exact E |].
  rewrite (post_then_get rt0 1000 _ db1 d s' "000000000000000000000002" 2%N E eq_refl).
  destruct (decide (2%N = Doc._id d)) as [Heq | _]; [|reflexivity].
  exfalso. apply Hne. symmetry. exact Heq.
Defined.

(** X10: deleting a record right after it was created gives back the
    database as it was before the creation. *)
Theorem post_then_delete rt now b s d s' id :
  post_spends rt now b s = (res_status_json 201 (Record_ d), s') →
  castObjectId rt id = Some (Doc._id d) →
  delete_spend rt id s' = (res_status_json 200 (Ok true), s).
Proof.
  intros H Hid.
  destruct (post_spends_created _ _ _ _ _ _ H) as (-> & Hfresh & _).
  unfold delete_spend, findByIdAndDelete. rewrite Hid.
  cbn [mbind option_bind spends set_spends]. rewrite lookup_insert_eq.
  rewrite delete_insert_id by done. unfold set_spends. cbn [spends incomes].
  by destruct s.
Qed.

Lemma post_then_delete_witness :
  ∃ d s', post_spends rt0 1000 (coffee (Some (JNum 5)) None) db0
            = (res_status_json 201 (Record_ d), s')
          ∧ delete_spend rt0 "000000000000000000000000" s'
            = (res_status_json 200 (Ok true), db0).
Proof.
  assert (∃ d s', post_spends rt0 1000 (coffee (Some (JNum 5)) None) db0
                  = (res_status_json 201 (Record_ d), s')
                  ∧ Doc._id d = 0%N) as (d & s' & E & Hd).
  { vm_compute. do 2 eexists. split; reflexivity. }
  exists d, s'. split; [exact E |].
  apply (post_then_delete rt0 1000 _ db0 d s' "000000000000000000000000" E).
  rewrite Hd. reflexivity.
Defined.

(** ** More on retrieval and deletion *)

(** X11: a delete request answers 200, 404 or 500, and 500 exactly when the
    identifier does not cast.  It never touches the incomes and never adds
    or changes a spend; it removes exactly one record when it answers 200
    and leaves the database as it was otherwise. *)
Theorem delete_spend_frame rt id s :
  let out := delete_spend rt id s in
  incomes out.2 = incomes s
  ∧ spends out.2 ⊆ spends s
  ∧ (status out.1 = 500 ↔ castObjectId rt id = None)
  ∧ (status out.1 = 200 ∧ S (size (spends out.2)) = size (spends s)
     ∨ (status out.1 = 404 ∨ status out.1 = 500) ∧ out.2 = s).
Proof.
  cbv zeta. unfold delete_spend, findByIdAndDelete.
  destruct (castObjectId rt id) as [i|]; cbn [mbind option_bind].
  - destruct (spends s !! i) as [d|] eqn:Hi;
      cbn [fst snd spends incomes set_spends status res_json res_status_json not_found].
    + split_and!; [done | apply delete_subseteq | split; intros [=] |].
      left. split; [done |].
      rewrite map_size_delete_Some by eauto.
      assert (size (spends s) ≠ 0%nat); [|lia].
      intros Hz. apply map_size_empty_inv in Hz. rewrite Hz in Hi.
      by rewrite lookup_empty in Hi.
    + rewrite delete_id by done.
      split_and!; [done | done | split; intros [=] |].
      right. split; [by left | by destruct s].
  - cbn. split_and!; [done | done | done |]. right. split; [by right | done].
Qed.

(** X12: deleting the same identifier a second time answers 404 and changes
    nothing more. *)
Theorem delete_twice rt id i s :
  castObjectId rt id = Some i →
  let s1 := (delete_spend rt id s).2 in
  delete_spend rt id s1 = (res_status_json 404 (Error "Not found"), s1).
Proof.
  intros Hid. cbv zeta. unfold delete_spend, findByIdAndDelete. rewrite Hid.
  cbn [mbind option_bind].
  assert (∀ c : coll, c !! i = None →
            ∀ s0, spends s0 = c →
              match (Some (spends s0 !! i, delete i (spends s0)) : option _) with
              | Some (Some _, c) => (res_json (Ok true), set_spends c s0)
              | Some (None, c) => (not_found, set_spends c s0)
              | None => (server_error, s0)
              end = (res_status_json 404 (Error "Not found"), s0)) as Haux.
  { intros c Hc s0 <-. rewrite Hc, delete_id by done. by destruct s0. }
  destruct (spends s !! i) as [d|] eqn:Hi; cbn [snd].
  - apply (Haux (delete i (spends s))); [apply lookup_delete_eq | done].
  - apply (Haux (delete i (spends s))); [apply lookup_delete_eq | done].
Qed.

Lemma delete_twice_witness :
  delete_spend rt0 "000000000000000000000002"
    (delete_spend rt0 "000000000000000000000002" db1).2 =
  (res_status_json 404 (Error "Not found"),
   (delete_spend rt0 "000000000000000000000002" db1).2).
Proof.
  apply (delete_twice rt0 "000000000000000000000002" 2%N db1). reflexivity.
Defined.

(** ** More on summaries and listings *)







(** X16: listing after creation: for a month with a valid range, the listing
    of a sector after a record was created holds the records it held before
    and, when the new record is of that sector and dated in the range, the
    new record. *)
Theorem listing_after_post rt now b s d s' now' sector month st e l l' :
  post_spends rt now b s = (res_status_json 201 (Record_ d), s') →
  getMonthRange rt now' month = {| start := Some st; end_ := Some e |} →
  get_sector_spends rt now' sector month s = res_status_json 200 (Records l) →
  get_sector_spends rt now' sector month s' = res_status_json 200 (Records l') →
  l' ≡ₚ if decide (Doc.sector d = sector ∧ st <= Doc.date d < e) then d :: l else l.
Proof.
  intros H Hr Hl Hl'.
  destruct (post_spends_created _ _ _ _ _ _ H) as (-> & Hfresh & _).
  destruct (get_sector_spends_shape rt now' sector month s st e Hr) as (k & E & Hk).
  rewrite E in Hl. injection Hl as ->.
  destruct (get_sector_spends_shape rt now' sector month
              (set_spends (<[Doc._id d:=d]> (spends s)) s) st e Hr) as (k' & E' & Hk').
  rewrite E' in Hl'. injection Hl' as ->.
  cbn [spends set_spends] in Hk'. rewrite Hk'.
  unfold stage_match in *.
  rewrite (filter_Permutation _ _ _ (records_insert (spends s) _ d Hfresh)).
  rewrite list_filter_filter in *. rewrite filter_cons.
  unfold in_range in *.
  destruct (decide (Doc.sector d = sector ∧ st <= Doc.date d < e)); by rewrite Hk.
Qed.

Lemma listing_after_post_witness :
  ∃ d s' l',
    post_spends rt0 1000 (coffee (Some (JNum 5)) (Some (JStr "2024-02-10"))) db1
      = (res_status_json 201 (Record_ d), s')
    ∧ get_sector_spends rt0 0 "Food" (Some "2024-02") s' = res_status_json 200 (Records l')
    ∧ l' ≡ₚ [d; spend 3 "Food" 7 1708000000000; spend 1 "Food" 5 1707000000000].
Proof.
  assert (∃ d s' l',
            post_spends rt0 1000 (coffee (Some (JNum 5)) (Some (JStr "2024-02-10"))) db1
              = (res_status_json 201 (Record_ d), s')
            ∧ get_sector_spends rt0 0 "Food" (Some "2024-02") s'
              = res_status_json 200 (Records l')
            ∧ Doc.sector d = "Food" ∧ Doc.date d = 1707523200000)
    as (d & s' & l' & E & El & Hs & Hd).
  { do 3 eexists. split; [vm_compute; reflexivity |].
    split; [vm_compute; reflexivity |]. split; reflexivity. }
  exists d, s', l'. split; [exact E |]. split; [exact El |].
  pose proof (listing_after_post rt0 1000 _ db1 d s' 0 "Food" (Some "2024-02")
                1706745600000 1709251200000
                [spend 3 "Food" 7 1708000000000; spend 1 "Food" 5 1707000000000] l'
                E eq_refl eq_refl El) as Hp.
  rewrite Hs, Hd in Hp. exact Hp.
Defined.

(** ** An invariant of the database *)

(** X17: creations and deletions, of spends and of incomes, keep the
    database well formed: every record is stored under its own identifier
    and has a non-empty name and a non-empty sector. *)
Theorem wf_db_preserved rt now b id s :
  wf_db s →
  wf_db (post_spends rt now b s).2 ∧ wf_db (delete_spend rt id s).2
  ∧ wf_db (post_incomes rt now b s).2 ∧ wf_db (delete_income rt id s).2.
Proof.
  intros [Hs Hi]. split_and!.
  - destruct (post_spends_cases rt now b s) as [-> | [-> | (d & c' & Hc & ->)]];
      [done | done |].
    split; [|done]. cbn [snd spends set_spends].
    exact (wf_coll_create rt now _ _ d c' Hs Hc).
  - rewrite delete_spend_state. destruct (castObjectId rt id); [|done].
    split; [|done]. cbn [spends set_spends]. by apply map_Forall_delete.
  - destruct (post_incomes_cases rt now b s) as [-> | [-> | (d & c' & Hc & ->)]];
      [done | done |].
    split; [done |]. cbn [snd incomes set_incomes].
    exact (wf_coll_create rt now _ _ d c' Hi Hc).
  - rewrite delete_income_state. destruct (castObjectId rt id); [|done].
    split; [done |]. cbn [incomes set_incomes]. by apply map_Forall_delete.
Qed.

Lemma wf_db_preserved_witness :
  wf_db (post_spends rt0 1000 (coffee (Some (JNum 5)) None) db1).2.
Proof.
  apply (wf_db_preserved rt0 1000 (coffee (Some (JNum 5)) None) "" db1).
  split.
  - apply (bool_decide_unpack _). vm_compute. exact I.
  - apply map_Forall_empty.
Defined.

(** X18: income requests never change what the spend requests answer: after
    an income was created or deleted, the spends collection, the spend
    summaries, the spend listings and the spend retrievals are as before. *)
Theorem incomes_leave_spends rt now b id s now' month sector id' :
  let s1 := (post_incomes rt now b s).2 in
  let s2 := (delete_income rt id s).2 in
  spends s1 = spends s ∧ spends s2 = spends s
  ∧ get_spends_summary rt now' month s1 = get_spends_summary rt now' month s
  ∧ get_spends_summary rt now' month s2 = get_spends_summary rt now' month s
  ∧ get_sector_spends rt now' sector month s1 = get_sector_spends rt now' sector month s
  ∧ get_sector_spends rt now' sector month s2 = get_sector_spends rt now' sector month s
  ∧ get_spend rt id' s1 = get_spend rt id' s
  ∧ get_spend rt id' s2 = get_spend rt id' s.
Proof.
  cbv zeta.
  assert (H1 : spends (post_incomes rt now b s).2 = spends s).
  { by destruct (post_incomes_cases rt now b s) as [-> | [-> | (d & c' & _ & ->)]]. }
  assert (H2 : spends (delete_income rt id s).2 = spends s).
  { rewrite delete_income_state. by destruct (castObjectId rt id). }
  unfold get_spends_summary, get_sector_spends, get_spend.
  by rewrite H1, H2.
Qed.

(** ** The Spend schema *)

(** X19: the schema rejects an object whose name, sector or amount is
    missing ([undefined], [null] or the empty string): nothing is created. *)
Theorem create_missing_required rt now c o :
  missing (NewDoc.name o) ∨ missing (NewDoc.sector o) ∨ missing (NewDoc.amount o) →
  create SpendSchema rt now c o = None.
Proof.
  intros H. unfold create, SpendSchema.
  assert (∀ v, missing v → path_String_required rt v = None) as HS.
  { by intros v [-> | [-> | ->]]. }
  assert (∀ v, missing v → path_Number_required rt v = None) as HN.
  { by intros v [-> | [-> | ->]]. }
  destruct H as [H | [H | H]].
  - by rewrite (HS _ H).
  - rewrite (HS _ H). by destruct (path_String_required rt (NewDoc.name o)).
  - rewrite (HN _ H). destruct (path_String_required rt (NewDoc.name o)); [|done].
    by destruct (path_String_required rt (NewDoc.sector o)).
Qed.

Lemma create_missing_required_witness :
  create SpendSchema rt0 1000 ∅
    {| NewDoc.name := Some (JStr "Coffee"); NewDoc.sector := Some (JStr "Food");
       NewDoc.amount := Some JNull; NewDoc.note := None; NewDoc.date := None |} = None.
Proof.
  apply create_missing_required. right. right. right. left. reflexivity.
Defined.

(** X20: a document that is created is stored under an identifier that was
    not in use, next to the documents that were there; it gets the creation
    time in both timestamps, and also as its date when no date is given. *)
Theorem create_stores rt now c o d c' :
  create SpendSchema rt now c o = Some (d, c') →
  c !! Doc._id d = None ∧ c' !! Doc._id d = Some d ∧ c ⊆ c'
  ∧ size c' = S (size c)
  ∧ Doc.createdAt d = now ∧ Doc.updatedAt d = now
  ∧ (NewDoc.date o = None → Doc.date d = now)
  ∧ (∀ t, NewDoc.date o = Some (Some t) → Doc.date d = t).
Proof.
  intros Hc.
  destruct (create_SpendSchema_fields _ _ _ _ _ _ Hc)
    as (-> & Hfresh & _ & _ & _ & _ & Hd & Hc1 & Hc2).
  split_and!; try done.
  - apply lookup_insert_eq.
  - by apply insert_subseteq.
  - by apply map_size_insert_None.
  - intros Ho. rewrite Ho in Hd. by injection Hd.
  - intros t Ho. rewrite Ho in Hd. by injection Hd.
Qed.

Lemma create_stores_witness :
  ∃ d c', create SpendSchema rt0 1000 ∅
            {| NewDoc.name := Some (JStr "Coffee"); NewDoc.sector := Some (JStr "Food");
               NewDoc.amount := Some (JNum 5); NewDoc.note := None;
               NewDoc.date := None |} = Some (d, c')
          ∧ Doc.date d = 1000 ∧ c' !! Doc._id d = Some d.
Proof.
  assert (∃ d c', create SpendSchema rt0 1000 ∅
            {| NewDoc.name := Some (JStr "Coffee"); NewDoc.sector := Some (JStr "Food");
               NewDoc.amount := Some (JNum 5); NewDoc.note := None;
               NewDoc.date := None |} = Some (d, c')) as (d & c' & E).
  { vm_compute. do 2 eexists. reflexivity. }
  exists d, c'.
  destruct (create_stores rt0 1000 ∅ _ d c' E) as (_ & Hin & _ & _ & _ & _ & Hd & _).
  split_and!; [exact E | by apply Hd | exact Hin].
Defined.

(** X21: a create request is answered 400 exactly when the name or the
    sector is falsy or the amount is [null] or [undefined]; no other request
    is refused as incomplete. *)
Theorem post_spends_400_iff rt now b s :
  status (post_spends rt now b s).1 = 400
  ↔ truthy (Body.name b) = false ∨ truthy (Body.sector b) = false
    ∨ nullish (Body.amount b) = true.
Proof.
  unfold post_spends.
  destruct (truthy (Body.name b)), (truthy (Body.sector b)),
    (nullish (Body.amount b)); cbn [negb orb fst status res_status_json];
    try (split; [by auto | done]).
  destruct (create SpendSchema rt now (spends s) _) as [[d c]|];
    cbn [fst status res_status_json server_error];
    (split; [intros [=] | intros [[=] | [[=] | [=]]]]).
Qed.
